(** * A shallow embedding of the libnvme NVMe-MI core (mi.c) and its MCTP
    transport (mi-mctp.c), with the properties of the submit pipeline, the
    Admin command layer and the MCTP receive path. *)

From Stdlib Require Import ZArith List Lia Bool Arith.
Import ListNotations.

Open Scope Z_scope.

(** ** Machine data *)

(** A byte is an 8-bit value held in a [Z]; 32-bit words ([__u32]) are [Z]s
    in [0, 2^32). Buffer lengths are [size_t]s, held as [nat]. *)
Abbreviation byte := Z (only parsing).

Definition u32_mask : Z := 0xffffffff.

(** [~x] on a [__u32]. *)
Definition lnot32 (x : Z) : Z := Z.lxor x u32_mask.

(** [le32_to_cpu] of four bytes as they lie in memory. *)
Definition le32_decode (b : list byte) : Z :=
  match b with
  | [b0; b1; b2; b3] => b0 + 256 * b1 + 65536 * b2 + 16777216 * b3
  | _ => 0
  end.

(** [cpu_to_le32]: the four bytes of a word in memory order. *)
Definition le32_encode (w : Z) : list byte :=
  [Z.land w 255; Z.land (Z.shiftr w 8) 255;
   Z.land (Z.shiftr w 16) 255; Z.land (Z.shiftr w 24) 255].

(** [le16_to_cpu] of two bytes. *)
Definition le16_decode (b0 b1 : byte) : Z := b0 + 256 * b1.

(** errno values (Linux). *)
Definition EIO : Z := 5.
Definition EINTR : Z := 4.
Definition EINVAL : Z := 22.
Definition EPROTO : Z := 71.
Definition ETIMEDOUT : Z := 110.

(** Constants of mi.h / private.h. *)
Definition NVME_MI_MSGTYPE_NVME : byte := 0x84.
Definition NVME_MI_ROR_REQ : Z := 0.
Definition NVME_MI_ROR_RSP : Z := 1.
Definition NVME_MI_MT_MI : Z := 1.
Definition NVME_MI_MT_ADMIN : Z := 2.
Definition NVME_MI_RESP_MPR : byte := 0x01.

(** [sizeof(struct nvme_mi_msg_hdr)]: type, nmp, meb, rsvd0. *)
Definition sizeof_msg_hdr : nat := 4.
(** [sizeof(struct nvme_mi_msg_resp)]: header, status, rsvd[3]. *)
Definition sizeof_msg_resp : nat := 8.
(** [sizeof(struct nvme_mi_admin_req_hdr)]: header, opcode, flags, ctrl_id,
    cdw1..cdw5, doff, dlen, rsvd0, rsvd1, cdw10..cdw15. *)
Definition sizeof_admin_req_hdr : nat := 68.
(** [sizeof(struct nvme_mi_admin_resp_hdr)]: header, status, rsvd[3], cdw0,
    cdw1, cdw3. *)
Definition sizeof_admin_resp_hdr : nat := 20.
(** [sizeof(struct nvme_mi_mi_resp_hdr)]: header, status, nmresp[3]. *)
Definition sizeof_mi_resp_hdr : nat := 8.

(** ** CRC engine (mi.c, [nvme_mi_crc32_update]) *)

(** One step of the inner [for (i = 0; i < 8; i++)] loop. *)
Definition crc_shift (crc : Z) : Z :=
  Z.lxor (Z.shiftr crc 1) (if Z.testbit crc 0 then 0x82F63B78 else 0).

Fixpoint crc_shifts (n : nat) (crc : Z) : Z :=
  match n with
  | O => crc
  | S n' => crc_shifts n' (crc_shift crc)
  end.

(** [crc ^= *data++] followed by the eight shift steps, for each byte. *)
Fixpoint nvme_mi_crc32_update (crc : Z) (data : list byte) : Z :=
  match data with
  | [] => crc
  | b :: rest => nvme_mi_crc32_update (crc_shifts 8 (Z.lxor crc b)) rest
  end.

(** ** Request and response frames ([struct nvme_mi_req], [nvme_mi_resp]) *)

(** A frame points at a header buffer and a data buffer; the buffers are the
    lists, the [_len] fields are the lengths the frame advertises. *)
Record mi_req := MiReq {
  rq_hdr : list byte;
  rq_hdr_len : nat;
  rq_data : list byte;
  rq_data_len : nat;
  rq_mic : Z
}.

Record mi_resp := MiResp {
  rs_hdr : list byte;
  rs_hdr_len : nat;
  rs_data : list byte;
  rs_data_len : nat;
  rs_mic : Z
}.

(** The span [(p, len)] of a buffer. *)
Definition span (buf : list byte) (len : nat) : list byte := firstn len buf.

Definition set_req_mic (req : mi_req) (mic : Z) : mi_req :=
  MiReq (rq_hdr req) (rq_hdr_len req) (rq_data req) (rq_data_len req) mic.

Definition nvme_mi_calc_req_mic (req : mi_req) : mi_req :=
  let crc := 0xffffffff in
  let crc := nvme_mi_crc32_update crc (span (rq_hdr req) (rq_hdr_len req)) in
  let crc := nvme_mi_crc32_update crc (span (rq_data req) (rq_data_len req)) in
  set_req_mic req (lnot32 crc).

(** returns zero on correct MIC: [resp->mic != ~crc] *)
Definition nvme_mi_verify_resp_mic (resp : mi_resp) : Z :=
  let crc := 0xffffffff in
  let crc := nvme_mi_crc32_update crc (span (rs_hdr resp) (rs_hdr_len resp)) in
  let crc := nvme_mi_crc32_update crc (span (rs_data resp) (rs_data_len resp)) in
  if rs_mic resp =? lnot32 crc then 0 else 1.

(** ** Transports ([struct nvme_mi_transport]) *)

(** The slots of a transport the submit pipeline uses. [submit] returns the
    return code, the errno it set (if any) and the response frame as it left
    it. *)
Record transport := Transport {
  mic_enabled : bool;
  t_submit : mi_req -> mi_resp -> Z * option Z * mi_resp
}.

(** The outcome of a call into the pipeline: return code, errno set by the
    call (if any), the frames as left by the call, and the number of calls
    made into the transport (the only I/O of the pipeline). *)
Record submit_result := SubmitResult {
  sr_rc : Z;
  sr_errno : option Z;
  sr_req : mi_req;
  sr_resp : mi_resp;
  sr_calls : nat
}.

Definition hdr_byte (h : list byte) (i : nat) : byte := nth i h 0.

Definition nvme_mi_submit (tr : transport) (req : mi_req) (resp : mi_resp)
  : submit_result :=
  let einval := SubmitResult (-1) (Some EINVAL) req resp 0 in
  if (rq_hdr_len req <? sizeof_msg_hdr)%nat then einval
  else if negb (Nat.land (rq_hdr_len req) 3 =? 0)%nat then einval
  else if negb (Nat.land (rq_data_len req) 3 =? 0)%nat then einval
  else if (rs_hdr_len resp <? sizeof_msg_hdr)%nat then einval
  else if negb (Nat.land (rs_hdr_len resp) 3 =? 0)%nat then einval
  else if negb (Nat.land (rs_data_len resp) 3 =? 0)%nat then einval
  else
  let req := if mic_enabled tr then nvme_mi_calc_req_mic req else req in
  let '(rc, err, resp) := t_submit tr req resp in
  if negb (rc =? 0) then SubmitResult rc err req resp 1
  else
  let rc := if mic_enabled tr then nvme_mi_verify_resp_mic resp else 0 in
  if negb (rc =? 0) then SubmitResult rc err req resp 1
  else if (rs_hdr_len resp <? sizeof_msg_hdr)%nat then
    SubmitResult (-1) (Some EPROTO) req resp 1
  else if negb (hdr_byte (rs_hdr resp) 0 =? NVME_MI_MSGTYPE_NVME) then
    SubmitResult (-1) (Some EPROTO) req resp 1
  else if Z.land (hdr_byte (rs_hdr resp) 1) (Z.shiftl NVME_MI_ROR_RSP 7) =? 0 then
    SubmitResult (-1) (Some EIO) req resp 1
  else if negb (Z.land (hdr_byte (rs_hdr resp) 1) 1
                =? Z.land (hdr_byte (rq_hdr req) 1) 1) then
    SubmitResult (-1) (Some EIO) req resp 1
  else SubmitResult 0 err req resp 1.

(** ** In-memory headers *)

(** [memcpy(buf + off, bs, len(bs))] within a buffer. *)
Definition set_bytes (buf : list byte) (off : nat) (bs : list byte) : list byte :=
  firstn off buf ++ bs ++ skipn (off + length bs) buf.

Definition set_u8 (buf : list byte) (off : nat) (b : byte) : list byte :=
  set_bytes buf off [b].

Definition set_le32 (buf : list byte) (off : nat) (w : Z) : list byte :=
  set_bytes buf off (le32_encode w).

Definition get_le32 (buf : list byte) (off : nat) : Z :=
  le32_decode (firstn 4 (skipn off buf)).

(** Field offsets of [struct nvme_mi_admin_req_hdr]. *)
Definition OFF_TYPE : nat := 0.
Definition OFF_NMP : nat := 1.
Definition OFF_OPCODE : nat := 4.
Definition OFF_FLAGS : nat := 5.
Definition OFF_CTRL_ID : nat := 6.
Definition OFF_CDW1 : nat := 8.
Definition OFF_DOFF : nat := 28.
Definition OFF_DLEN : nat := 32.
Definition OFF_CDW10 : nat := 44.
Definition OFF_CDW11 : nat := 48.
Definition OFF_CDW12 : nat := 52.
Definition OFF_CDW13 : nat := 56.
Definition OFF_CDW14 : nat := 60.
(** Offset of the status byte in every response header. *)
Definition OFF_STATUS : nat := 4.

Definition nvme_admin_get_log_page : byte := 0x02.

(** The Admin request header built by [nvme_mi_admin_init_req]: zeroed, then
    type, nmp (ROR = request, message type Admin, slot 0), opcode, ctrl_id. *)
Definition admin_init_hdr (ctrl_id : Z) (opcode : byte) : list byte :=
  let h := repeat 0 sizeof_admin_req_hdr in
  let h := set_u8 h OFF_TYPE NVME_MI_MSGTYPE_NVME in
  let h := set_u8 h OFF_NMP (Z.lor (Z.shiftl NVME_MI_ROR_REQ 7)
                                   (Z.shiftl NVME_MI_MT_ADMIN 3)) in
  let h := set_u8 h OFF_OPCODE opcode in
  set_bytes h OFF_CTRL_ID [Z.land ctrl_id 255; Z.land (Z.shiftr ctrl_id 8) 255].

Definition nvme_mi_admin_init_req (hdr : list byte) : mi_req :=
  MiReq hdr sizeof_admin_req_hdr [] 0 0.

(** [nvme_mi_admin_init_resp]: the header buffer is the caller's (stack)
    [struct nvme_mi_admin_resp_hdr]. *)
Definition nvme_mi_admin_init_resp (hdr : list byte) : mi_resp :=
  MiResp hdr sizeof_admin_resp_hdr [] 0 0.

(** An uninitialised stack response header: its contents are overwritten by
    the transport before they are read. *)
Definition stack_admin_resp_hdr : list byte := repeat 0 sizeof_admin_resp_hdr.

(** ** Generic Admin transfer ([nvme_mi_admin_xfer]) *)

Record xfer_result := XferResult {
  xr_rc : Z;
  xr_errno : option Z;
  xr_resp_data_size : nat;
  xr_calls : nat
}.

(** [admin_req] is the caller's header, [req_data] the data following it;
    [admin_resp] and [resp_data] likewise for the response. *)
Definition nvme_mi_admin_xfer (tr : transport)
  (admin_req : list byte) (req_data : list byte) (req_data_size : nat)
  (admin_resp : list byte) (resp_data : list byte)
  (resp_data_offset : Z) (resp_data_size : nat) : xfer_result :=
  let einval := XferResult (-1) (Some EINVAL) resp_data_size 0 in
  if (4096 <? resp_data_size)%nat then einval
  else if 0xffffffff <? resp_data_offset then einval
  else if negb (Z.land resp_data_offset 3 =? 0) then einval
  else if negb (req_data_size =? 0)%nat && negb (resp_data_size =? 0)%nat then einval
  else if (resp_data_size =? 0)%nat && negb (resp_data_offset =? 0) then einval
  else
  let h := set_u8 admin_req OFF_TYPE NVME_MI_MSGTYPE_NVME in
  let h := set_u8 h OFF_NMP (Z.lor (Z.shiftl NVME_MI_ROR_REQ 7)
                                   (Z.shiftl NVME_MI_MT_ADMIN 3)) in
  let req := MiReq h sizeof_admin_req_hdr req_data req_data_size 0 in
  let req := nvme_mi_calc_req_mic req in
  let resp := MiResp admin_resp sizeof_admin_resp_hdr resp_data resp_data_size 0 in
  (* the header fields are written after the MIC was computed, as in the
     source *)
  let h := rq_hdr req in
  let h := set_u8 h OFF_FLAGS 3 in
  let h := set_le32 h OFF_DLEN (Z.land (Z.of_nat (rs_data_len resp)) u32_mask) in
  let h := set_le32 h OFF_DOFF (Z.land resp_data_offset u32_mask) in
  let req := MiReq h (rq_hdr_len req) (rq_data req) (rq_data_len req) (rq_mic req) in
  let r := nvme_mi_submit tr req resp in
  if negb (sr_rc r =? 0) then
    XferResult (sr_rc r) (sr_errno r) resp_data_size (sr_calls r)
  else XferResult 0 (sr_errno r) (rs_data_len (sr_resp r)) (sr_calls r).

(** ** Get Log Page ([__nvme_mi_admin_get_log], [nvme_mi_admin_get_log]) *)

Record get_log_args := GetLogArgs {
  ga_lpo : Z;
  ga_args_size : Z;
  ga_lid : Z;
  ga_len : Z;
  ga_nsid : Z;
  ga_csi : Z;
  ga_lsi : Z;
  ga_lsp : Z;
  ga_uuidx : Z;
  ga_rae : bool;
  ga_ot : bool;
  ga_log : list byte
}.

(** [sizeof(struct nvme_get_log_args)] (LP64). *)
Definition sizeof_get_log_args : Z := 56.

Definition with_log (a : get_log_args) (log : list byte) : get_log_args :=
  GetLogArgs (ga_lpo a) (ga_args_size a) (ga_lid a) (ga_len a) (ga_nsid a)
    (ga_csi a) (ga_lsi a) (ga_lsp a) (ga_uuidx a) (ga_rae a) (ga_ot a) log.

Definition with_len (a : get_log_args) (len : Z) : get_log_args :=
  GetLogArgs (ga_lpo a) (ga_args_size a) (ga_lid a) len (ga_nsid a)
    (ga_csi a) (ga_lsi a) (ga_lsp a) (ga_uuidx a) (ga_rae a) (ga_ot a) (ga_log a).

(** [cdw10] of a Get Log Page chunk. *)
Definition get_log_cdw10 (ndw : Z) (final : bool) (args : get_log_args) : Z :=
  Z.lor (Z.shiftl (Z.land ndw 0xffff) 16)
    (Z.lor (Z.shiftl (if negb final || ga_rae args then 1 else 0) 15)
      (Z.lor (Z.shiftl (ga_lsp args) 8) (Z.land (ga_lid args) 0xff))).

(** The outcome of one inner call: return code, errno set, the log buffer,
    [*lenp], and the requests handed to the transport. *)
Record chunk_result := ChunkResult {
  cr_rc : Z;
  cr_errno : option Z;
  cr_log : list byte;
  cr_len : Z;
  cr_sent : list mi_req
}.

Definition __nvme_mi_admin_get_log (tr : transport) (ctrl_id : Z)
  (args : get_log_args) (offset : Z) (lenp : Z) (final : bool) : chunk_result :=
  let len := lenp in
  let einval := ChunkResult (-1) (Some EINVAL) (ga_log args) lenp [] in
  if (len =? 0) || (4096 <? len) || (len <? 4) then einval
  else if (offset <? 0) || (len <=? offset) then einval
  else
  let ndw := Z.shiftr len 2 - 1 in
  let h := admin_init_hdr ctrl_id nvme_admin_get_log_page in
  let h := set_le32 h OFF_CDW1 (ga_nsid args) in
  let h := set_le32 h OFF_CDW10 (get_log_cdw10 ndw final args) in
  let h := set_le32 h OFF_CDW11 (Z.lor (Z.shiftl (ga_lsi args) 16) (Z.shiftr ndw 16)) in
  let h := set_le32 h OFF_CDW12 (Z.land (ga_lpo args) u32_mask) in
  let h := set_le32 h OFF_CDW13 (Z.shiftr (ga_lpo args) 32) in
  let h := set_le32 h OFF_CDW14
             (Z.lor (Z.shiftl (ga_csi args) 24)
               (Z.lor (Z.shiftl (if ga_ot args then 1 else 0) 23) (ga_uuidx args))) in
  let h := set_u8 h OFF_FLAGS 1 in
  let h := set_le32 h OFF_DLEN (Z.land len u32_mask) in
  let h := if offset =? 0 then h
           else set_le32 (set_u8 h OFF_FLAGS (Z.lor 1 2)) OFF_DOFF offset in
  let req := nvme_mi_calc_req_mic (nvme_mi_admin_init_req h) in
  let resp0 := nvme_mi_admin_init_resp stack_admin_resp_hdr in
  let resp := MiResp (rs_hdr resp0) (rs_hdr_len resp0)
                (firstn (Z.to_nat len) (skipn (Z.to_nat offset) (ga_log args)))
                (Z.to_nat len) 0 in
  let r := nvme_mi_submit tr req resp in
  let sent := if (sr_calls r =? 0)%nat then [] else [sr_req r] in
  (* the transport wrote into [args->log + offset] *)
  let log := set_bytes (ga_log args) (Z.to_nat offset) (rs_data (sr_resp r)) in
  if negb (sr_rc r =? 0) then ChunkResult (sr_rc r) (sr_errno r) log lenp sent
  else
  let status := hdr_byte (rs_hdr (sr_resp r)) OFF_STATUS in
  if negb (status =? 0) then ChunkResult status (sr_errno r) log lenp sent
  else ChunkResult 0 (sr_errno r) log (Z.of_nat (rs_data_len (sr_resp r))) sent.

(** One inner call as issued by the loop: offset, chunk size, [final]. *)
Definition inner_call := (Z * Z * bool)%type.

Record get_log_result := GetLogResult {
  gl_rc : Z;
  gl_errno : option Z;
  gl_args : get_log_args;
  gl_inner : list inner_call;
  gl_sent : list mi_req
}.

Definition errno_after (before after : option Z) : option Z :=
  match after with Some _ => after | None => before end.

(** The [for (xfer_offset = 0; xfer_offset < args->len;)] loop; [fuel] bounds
    the number of iterations ([None] when it runs out). It returns the final
    [rc], errno, args, [xfer_offset] and the inner calls and requests sent. *)
Fixpoint get_log_loop (fuel : nat) (tr : transport) (ctrl_id : Z)
  (args : get_log_args) (xfer_offset : Z) (err : option Z)
  (inner : list inner_call) (sent : list mi_req)
  : option (Z * option Z * get_log_args * Z * list inner_call * list mi_req) :=
  match fuel with
  | O => None
  | S fuel' =>
    if xfer_offset <? ga_len args then
      let xfer_size := 4096 in
      let cur_xfer_size :=
        if ga_len args <? xfer_offset + xfer_size
        then ga_len args - xfer_offset else xfer_size in
      let tmp := cur_xfer_size in
      let final := ga_len args <=? xfer_offset + cur_xfer_size in
      let r := __nvme_mi_admin_get_log tr ctrl_id args xfer_offset tmp final in
      let args := with_log args (cr_log r) in
      let err := errno_after err (cr_errno r) in
      let inner := inner ++ [(xfer_offset, cur_xfer_size, final)] in
      let sent := sent ++ cr_sent r in
      if negb (cr_rc r =? 0) then Some (cr_rc r, err, args, xfer_offset, inner, sent)
      else
      let tmp := cr_len r in
      let xfer_offset := xfer_offset + tmp in
      if negb (tmp =? cur_xfer_size) then Some (0, err, args, xfer_offset, inner, sent)
      else get_log_loop fuel' tr ctrl_id args xfer_offset err inner sent
    else Some (0, err, args, xfer_offset, inner, sent)
  end.

(** Each iteration that goes on advances [xfer_offset] by a positive chunk, so
    [len + 1] iterations are enough. *)
Definition nvme_mi_admin_get_log (tr : transport) (ctrl_id : Z)
  (args : get_log_args) : option get_log_result :=
  if ga_args_size args <? sizeof_get_log_args then
    Some (GetLogResult (-1) (Some EINVAL) args [] [])
  else
  match get_log_loop (S (Z.to_nat (ga_len args))) tr ctrl_id args 0 None [] [] with
  | None => None
  | Some (rc, err, args, xfer_offset, inner, sent) =>
    let args := if rc =? 0 then with_len args xfer_offset else args in
    Some (GetLogResult rc err args inner sent)
  end.

(** ** MI Configuration Set ([nvme_mi_mi_config_set]) *)

Definition nvme_mi_mi_opcode_configuration_set : byte := 0x03.
(** [sizeof(struct nvme_mi_mi_req_hdr)]: header, opcode, rsvd0[3], cdw0, cdw1. *)
Definition sizeof_mi_req_hdr : nat := 16.

Definition nvme_mi_mi_config_set (tr : transport) (resp_hdr : list byte)
  (dw0 dw1 : Z) : Z :=
  let h := repeat 0 sizeof_mi_req_hdr in
  let h := set_u8 h OFF_TYPE NVME_MI_MSGTYPE_NVME in
  let h := set_u8 h OFF_NMP (Z.lor (Z.shiftl NVME_MI_ROR_REQ 7)
                                   (Z.shiftl NVME_MI_MT_MI 3)) in
  let h := set_u8 h OFF_OPCODE nvme_mi_mi_opcode_configuration_set in
  let h := set_le32 h 8 dw0 in
  let h := set_le32 h 12 dw1 in
  let req := MiReq h sizeof_mi_req_hdr [] 0 0 in
  let resp := MiResp resp_hdr sizeof_mi_resp_hdr [] 0 0 in
  let r := nvme_mi_submit tr req resp in
  if negb (sr_rc r =? 0) then sr_rc r
  else
  let status := hdr_byte (rs_hdr (sr_resp r)) OFF_STATUS in
  if negb (status =? 0) then status else 0.

(** ** MI Configuration Get ([nvme_mi_mi_config_get]) *)

Definition nvme_mi_mi_opcode_configuration_get : byte := 0x04.

(** The MI request header both Configuration commands build. *)
Definition mi_config_req (opcode dw0 dw1 : Z) : mi_req :=
  let h := repeat 0 sizeof_mi_req_hdr in
  let h := set_u8 h OFF_TYPE NVME_MI_MSGTYPE_NVME in
  let h := set_u8 h OFF_NMP (Z.lor (Z.shiftl NVME_MI_ROR_REQ 7)
                                   (Z.shiftl NVME_MI_MT_MI 3)) in
  let h := set_u8 h OFF_OPCODE opcode in
  let h := set_le32 h 8 dw0 in
  let h := set_le32 h 12 dw1 in
  MiReq h sizeof_mi_req_hdr [] 0 0.

(** Returns the return code and the value stored through [nmresp], if any. *)
Definition nvme_mi_mi_config_get (tr : transport) (resp_hdr : list byte)
  (dw0 dw1 : Z) : Z * option Z :=
  let req := mi_config_req nvme_mi_mi_opcode_configuration_get dw0 dw1 in
  let resp := MiResp resp_hdr sizeof_mi_resp_hdr [] 0 0 in
  let r := nvme_mi_submit tr req resp in
  if negb (sr_rc r =? 0) then (sr_rc r, None)
  else
  let h := rs_hdr (sr_resp r) in
  let status := hdr_byte h OFF_STATUS in
  if negb (status =? 0) then (status, None)
  else (0, Some (Z.lor (Z.lor (hdr_byte h 5) (Z.shiftl (hdr_byte h 6) 8))
                       (Z.shiftl (hdr_byte h 7) 16))).

(** ** Identify and Security Send / Receive *)

Definition nvme_admin_identify : byte := 0x06.
Definition nvme_admin_security_send : byte := 0x81.
Definition nvme_admin_security_recv : byte := 0x82.

(** Offset of [cdw0] in [struct nvme_mi_admin_resp_hdr]. *)
Definition OFF_RESP_CDW0 : nat := 8.

(** The outcome of an Admin command: return code, errno set, the value stored
    through [args->result] (if any), the response frame as the submit left
    it (its data is what landed in [args->data]), and the transport calls. *)
Record admin_result := AdminResult {
  ar_rc : Z;
  ar_errno : option Z;
  ar_result : option Z;
  ar_resp : mi_resp;
  ar_calls : nat
}.

Record identify_args := IdentifyArgs {
  ia_args_size : Z;
  ia_csi : Z;
  ia_nsid : Z;
  ia_cns : Z;
  ia_cntid : Z;
  ia_cns_specific_id : Z;
  ia_uuidx : Z;
  ia_data : list byte
}.

(** [sizeof(struct nvme_identify_args)] (LP64). *)
Definition sizeof_identify_args : Z := 48.

Definition nvme_mi_admin_identify_partial (tr : transport) (ctrl_id : Z)
  (args : identify_args) (offset : Z) (size : nat) : admin_result :=
  let resp0 := nvme_mi_admin_init_resp stack_admin_resp_hdr in
  let einval := AdminResult (-1) (Some EINVAL) None resp0 0 in
  if ia_args_size args <? sizeof_identify_args then einval
  else if (size =? 0)%nat || (0xffffffff <? Z.of_nat size) then einval
  else
  let h := admin_init_hdr ctrl_id nvme_admin_identify in
  let h := set_le32 h OFF_CDW1 (ia_nsid args) in
  let h := set_le32 h OFF_CDW10 (Z.lor (Z.shiftl (ia_cntid args) 16) (ia_cns args)) in
  let h := set_le32 h OFF_CDW11 (Z.lor (Z.shiftl (Z.land (ia_csi args) 0xff) 24)
                                       (ia_cns_specific_id args)) in
  let h := set_le32 h OFF_CDW14 (ia_uuidx args) in
  let h := set_le32 h OFF_DLEN (Z.land (Z.of_nat size) u32_mask) in
  let h := set_u8 h OFF_FLAGS 1 in
  let h := if offset =? 0 then h
           else set_le32 (set_u8 h OFF_FLAGS (Z.lor 1 2)) OFF_DOFF offset in
  let req := nvme_mi_calc_req_mic (nvme_mi_admin_init_req h) in
  let resp := MiResp (rs_hdr resp0) (rs_hdr_len resp0) (ia_data args) size 0 in
  let r := nvme_mi_submit tr req resp in
  if negb (sr_rc r =? 0) then AdminResult (sr_rc r) (sr_errno r) None (sr_resp r) (sr_calls r)
  else
  let status := hdr_byte (rs_hdr (sr_resp r)) OFF_STATUS in
  if negb (status =? 0) then AdminResult status (sr_errno r) None (sr_resp r) (sr_calls r)
  else
  let result := Some (get_le32 (rs_hdr (sr_resp r)) OFF_RESP_CDW0) in
  if negb (rs_data_len (sr_resp r) =? size)%nat then
    AdminResult (-1) (Some EPROTO) result (sr_resp r) (sr_calls r)
  else AdminResult 0 (sr_errno r) result (sr_resp r) (sr_calls r).

(** The fields of [struct nvme_security_send_args] and
    [struct nvme_security_receive_args] the commands read; [data_len] is a
    [__u32]. *)
Record security_args := SecurityArgs {
  sa_args_size : Z;
  sa_data : list byte;
  sa_data_len : Z;
  sa_nssf : Z;
  sa_spsp0 : Z;
  sa_spsp1 : Z;
  sa_secp : Z
}.

(** [sizeof] of either argument structure (LP64). *)
Definition sizeof_security_args : Z := 48.

Definition security_cdw10 (args : security_args) : Z :=
  Z.lor (Z.shiftl (sa_secp args) 24)
    (Z.lor (Z.shiftl (sa_spsp0 args) 16)
      (Z.lor (Z.shiftl (sa_spsp1 args) 8) (sa_nssf args))).

Definition security_req_hdr (ctrl_id : Z) (opcode : byte) (args : security_args)
  : list byte :=
  let h := admin_init_hdr ctrl_id opcode in
  let h := set_le32 h OFF_CDW10 (security_cdw10 args) in
  let h := set_le32 h OFF_CDW11 (Z.land (sa_data_len args) u32_mask) in
  let h := set_u8 h OFF_FLAGS 1 in
  set_le32 h OFF_DLEN (Z.land (sa_data_len args) u32_mask).

Definition nvme_mi_admin_security_send (tr : transport) (ctrl_id : Z)
  (args : security_args) : admin_result :=
  let resp := nvme_mi_admin_init_resp stack_admin_resp_hdr in
  let einval := AdminResult (-1) (Some EINVAL) None resp 0 in
  if sa_args_size args <? sizeof_security_args then einval
  else if 4096 <? sa_data_len args then einval
  else
  let h := security_req_hdr ctrl_id nvme_admin_security_send args in
  let req := MiReq h sizeof_admin_req_hdr (sa_data args) (Z.to_nat (sa_data_len args)) 0 in
  let req := nvme_mi_calc_req_mic req in
  let r := nvme_mi_submit tr req resp in
  if negb (sr_rc r =? 0) then AdminResult (sr_rc r) (sr_errno r) None (sr_resp r) (sr_calls r)
  else
  let status := hdr_byte (rs_hdr (sr_resp r)) OFF_STATUS in
  if negb (status =? 0) then AdminResult status (sr_errno r) None (sr_resp r) (sr_calls r)
  else AdminResult 0 (sr_errno r) (Some (get_le32 (rs_hdr (sr_resp r)) OFF_RESP_CDW0))
         (sr_resp r) (sr_calls r).

(** Also returns [args] as left by the call ([args->data_len] updated on
    success). [*args->result] is assigned [resp_hdr.cdw0] without byte
    swapping; on a little-endian host that is the decoded word. *)
Definition nvme_mi_admin_security_recv (tr : transport) (ctrl_id : Z)
  (args : security_args) : admin_result * security_args :=
  let resp0 := nvme_mi_admin_init_resp stack_admin_resp_hdr in
  let einval := AdminResult (-1) (Some EINVAL) None resp0 0 in
  if sa_args_size args <? sizeof_security_args then (einval, args)
  else if 4096 <? sa_data_len args then (einval, args)
  else
  let h := security_req_hdr ctrl_id nvme_admin_security_recv args in
  let req := nvme_mi_calc_req_mic (nvme_mi_admin_init_req h) in
  let resp := MiResp (rs_hdr resp0) (rs_hdr_len resp0) (sa_data args)
                (Z.to_nat (sa_data_len args)) 0 in
  let r := nvme_mi_submit tr req resp in
  if negb (sr_rc r =? 0) then
    (AdminResult (sr_rc r) (sr_errno r) None (sr_resp r) (sr_calls r), args)
  else
  let status := hdr_byte (rs_hdr (sr_resp r)) OFF_STATUS in
  if negb (status =? 0) then
    (AdminResult status (sr_errno r) None (sr_resp r) (sr_calls r), args)
  else
  (AdminResult 0 (sr_errno r) (Some (get_le32 (rs_hdr (sr_resp r)) OFF_RESP_CDW0))
     (sr_resp r) (sr_calls r),
   SecurityArgs (sa_args_size args) (rs_data (sr_resp r))
     (Z.of_nat (rs_data_len (sr_resp r))) (sa_nssf args) (sa_spsp0 args)
     (sa_spsp1 args) (sa_secp args)).

(** ** MI Data Read and endpoint scan *)

Definition nvme_mi_mi_opcode_mi_data_read : byte := 0x00.
Definition nvme_mi_dtyp_ctrl_list : Z := 2.

(** The outcome of [nvme_mi_read_data]: return code, errno set, the data
    buffer as left by the transport, [*data_len], and the transport calls. *)
Record read_result := ReadResult {
  rd_rc : Z;
  rd_errno : option Z;
  rd_data : list byte;
  rd_len : nat;
  rd_calls : nat
}.

(** [resp_hdr] is the (stack) response header, [data] the caller's buffer. *)
Definition nvme_mi_read_data (tr : transport) (cdw0 : Z) (resp_hdr : list byte)
  (data : list byte) (data_len : nat) : read_result :=
  let h := repeat 0 sizeof_mi_req_hdr in
  let h := set_u8 h OFF_TYPE NVME_MI_MSGTYPE_NVME in
  let h := set_u8 h OFF_NMP (Z.lor (Z.shiftl NVME_MI_ROR_REQ 7)
                                   (Z.shiftl NVME_MI_MT_MI 3)) in
  let h := set_u8 h OFF_OPCODE nvme_mi_mi_opcode_mi_data_read in
  let h := set_le32 h 8 cdw0 in
  let req := MiReq h sizeof_mi_req_hdr [] 0 0 in
  let resp := MiResp resp_hdr sizeof_mi_resp_hdr data data_len 0 in
  let r := nvme_mi_submit tr req resp in
  if negb (sr_rc r =? 0) then
    ReadResult (sr_rc r) (sr_errno r) (rs_data (sr_resp r)) data_len (sr_calls r)
  else
  let status := hdr_byte (rs_hdr (sr_resp r)) OFF_STATUS in
  if negb (status =? 0) then
    ReadResult status (sr_errno r) (rs_data (sr_resp r)) data_len (sr_calls r)
  else ReadResult 0 (sr_errno r) (rs_data (sr_resp r)) (rs_data_len (sr_resp r))
         (sr_calls r).

(** [sizeof(struct nvme_ctrl_list)]: [num] and 2047 identifiers. *)
Definition sizeof_ctrl_list : nat := 4096.

Definition nvme_mi_mi_read_mi_data_ctrl_list (tr : transport) (start_ctrlid : Z)
  (resp_hdr : list byte) (list : list byte) : read_result :=
  let cdw0 := Z.lor (Z.shiftl (Z.land nvme_mi_dtyp_ctrl_list 0xff) 24)
                    (Z.shiftl start_ctrlid 16) in
  let r := nvme_mi_read_data tr cdw0 resp_hdr list sizeof_ctrl_list in
  if negb (rd_rc r =? 0) then r
  else ReadResult 0 (rd_errno r) (rd_data r) (rd_len r) (rd_calls r).

Definition NVME_ID_CTRL_LIST_MAX : Z := 2047.

(** [le16_to_cpu(list.num)] and [list.identifier[i]] of a controller list in
    memory. *)
Definition ctrl_list_num (l : list byte) : Z := le16_decode (nth 0 l 0) (nth 1 l 0).

Definition ctrl_list_id (l : list byte) (i : nat) : Z :=
  le16_decode (nth (2 + 2 * i) l 0) (nth (3 + 2 * i) l 0).

(** The endpoint state [nvme_mi_scan_ep] works on: the ids of its controllers,
    in list order, and [controllers_scanned]. *)
Record ep_state := EpState {
  ep_ctrls : list Z;
  ep_scanned : bool
}.

(** The [for (i = 0; i < n_ctrl; i++)] loop over the identifiers; [alloc k]
    is whether the [k]-th [malloc] of [nvme_mi_init_ctrl] succeeds. *)
Fixpoint scan_add_ctrls (ids : list Z) (alloc : nat -> bool) (k : nat)
  (ctrls : list Z) : list Z :=
  match ids with
  | [] => ctrls
  | id :: rest =>
    if id =? 0 then scan_add_ctrls rest alloc k ctrls
    else if alloc k then scan_add_ctrls rest alloc (S k) (ctrls ++ [id])
    else ctrls
  end.

Record scan_result := ScanResult {
  sc_rc : Z;
  sc_errno : option Z;
  sc_ep : ep_state;
  sc_calls : nat
}.

(** From the read of the controller list on; [resp_hdr] and [list] are the
    stack buffers the read goes into. *)
Definition scan_ep_read (tr : transport) (ep : ep_state)
  (resp_hdr list : list byte) (alloc : nat -> bool) : scan_result :=
  let r := nvme_mi_mi_read_mi_data_ctrl_list tr 0 resp_hdr list in
  if negb (rd_rc r =? 0) then ScanResult (-1) (rd_errno r) ep (rd_calls r)
  else
  let n_ctrl := ctrl_list_num (rd_data r) in
  if NVME_ID_CTRL_LIST_MAX <? n_ctrl then ScanResult (-1) (Some EPROTO) ep (rd_calls r)
  else
  let ids := map (ctrl_list_id (rd_data r)) (seq 0 (Z.to_nat n_ctrl)) in
  ScanResult 0 (rd_errno r) (EpState (scan_add_ctrls ids alloc 0 (ep_ctrls ep)) true)
    (rd_calls r).

Definition nvme_mi_scan_ep (tr : transport) (ep : ep_state) (force_rescan : bool)
  (resp_hdr list : list byte) (alloc : nat -> bool) : scan_result :=
  if ep_scanned ep then
    if force_rescan then
      (* every controller is closed first *)
      scan_ep_read tr (EpState [] (ep_scanned ep)) resp_hdr list alloc
    else ScanResult 0 None ep 0
  else scan_ep_read tr ep resp_hdr list alloc.

(** ** MCTP transport (mi-mctp.c) *)

Module Mctp.

Definition MCTP_TYPE_NVME : byte := 0x04.
Definition MCTP_TYPE_MIC : byte := 0x80.
Definition MCTP_TAG_OWNER : Z := 0x08.

(** [sizeof(struct nvme_mi_msg_resp_mpr)]: header, status, rsvd0, mprt. *)
Definition sizeof_msg_resp_mpr : nat := 8.

(** The endpoint fields the transport reads. [ep_timeout] and [ep_mprt_max]
    are [unsigned int]s. *)
Record mi_ep := MiEp {
  ep_is_mctp : bool;     (* ep->transport == &nvme_mi_transport_mctp *)
  ep_timeout : Z;
  ep_mprt_max : Z
}.

(** What the socket layer answers, in order: the tag ioctl ([None] when it
    fails), [sendmsg] ([None] on success, else the errno), and one outcome per
    [poll] call. A ready poll is followed by [recvmsg], which fails or
    delivers one datagram. *)
Inductive recv_outcome :=
| RecvFail (e : Z)
| RecvMsg (m : list byte).

Inductive poll_outcome :=
| PollFail (e : Z)
| PollTimeout
| PollReady (r : recv_outcome).

Record mctp_env := MctpEnv {
  env_alloc : option Z;
  env_send : option Z;
  env_script : list poll_outcome
}.

(** Observable actions of the transport. *)
Inductive mctp_event :=
| EvTagAlloc (tag : Z)
| EvSend (tag : Z)
| EvPoll (timeout : Z)
| EvRecv
| EvTagDrop (tag : Z).

Definition nvme_mi_mctp_tag_alloc (env : mctp_env) : Z :=
  match env_alloc env with Some t => t | None => MCTP_TAG_OWNER end.

(** Conversion of an [unsigned int] to [int]. *)
Definition to_int32 (x : Z) : Z :=
  let x := Z.land x u32_mask in
  if x <? 2 ^ 31 then x else x - 2 ^ 32.

(** Scatter of a received datagram over [count] bytes of a buffer: the
    first bytes are overwritten, the rest kept. *)
Definition overlay (src dst : list byte) : list byte :=
  src ++ skipn (length src) dst.

Definition with_hdr (r : mi_resp) (h : list byte) : mi_resp :=
  MiResp h (rs_hdr_len r) (rs_data r) (rs_data_len r) (rs_mic r).

(** [recvmsg] with the three iovecs [(hdr + 1, hdr_len - 1)],
    [(data, data_len)], [(&mic, 4)]: returns the number of bytes placed, the
    response buffers and the [mic] local. *)
Definition mctp_recvmsg (resp : mi_resp) (micbuf : list byte) (m : list byte)
  : nat * mi_resp * list byte :=
  let n1 := (rs_hdr_len resp - 1)%nat in
  let n2 := rs_data_len resp in
  let p1 := firstn n1 m in
  let p2 := firstn n2 (skipn n1 m) in
  let p3 := firstn 4 (skipn (n1 + n2) m) in
  let hdr := match rs_hdr resp with
             | [] => []
             | b0 :: t => b0 :: overlay p1 t
             end in
  ((length p1 + length p2 + length p3)%nat,
   MiResp hdr (rs_hdr_len resp) (overlay p2 (rs_data resp)) n2 (rs_mic resp),
   overlay p3 micbuf).

(** Receive and re-add the type byte: [len] is then the received length with
    the type byte counted. [None] when [recvmsg] returned 0. *)
Definition mctp_rx_frame (resp : mi_resp) (micbuf : list byte) (m : list byte)
  : option (nat * mi_resp * list byte) :=
  let '(n, resp, micbuf) := mctp_recvmsg resp micbuf m in
  if (n =? 0)%nat then None
  else Some (S n, with_hdr resp (set_u8 (rs_hdr resp) 0
                                   (Z.lor MCTP_TYPE_NVME MCTP_TYPE_MIC)), micbuf).

(** A read of [n] bytes at [off] within a buffer; [None] when it falls outside
    the buffer (the memory access is invalid). *)
Definition read_bytes (buf : list byte) (off n : nat) : option (list byte) :=
  if (off + n <=? length buf)%nat then Some (firstn n (skipn off buf)) else None.

(** [nvme_mi_mctp_resp_is_mpr]: [None] on an invalid memory access, [Some
    None] when not an MPR, [Some (Some t)] for an MPR with [*mpr_time = t]. *)
Definition nvme_mi_mctp_resp_is_mpr (resp : mi_resp) (len : nat)
  : option (option Z) :=
  if negb (len =? sizeof_msg_resp_mpr + 4)%nat then Some None
  else
  let msg := firstn sizeof_msg_resp_mpr (rs_hdr resp) in
  if negb (nth 4 msg 0 =? NVME_MI_RESP_MPR) then Some None
  else
  let mic := if (sizeof_msg_resp_mpr <? rs_hdr_len resp)%nat
             then read_bytes (rs_hdr resp) sizeof_msg_resp_mpr 4
             else read_bytes (rs_data resp) 0 4 in
  match mic with
  | None => None
  | Some mic =>
    let crc := lnot32 (nvme_mi_crc32_update 0xffffffff msg) in
    if negb (le32_decode mic =? crc) then Some None
    else Some (Some (le16_decode (nth 6 msg 0) (nth 7 msg 0) * 100))
  end.

(** The wait chosen after an MPR. *)
Definition mpr_wait (ep : mi_ep) (mpr_time : Z) : Z :=
  let mpr_time := if mpr_time =? 0
                  then (if ep_timeout ep =? 0 then 0xffff else ep_timeout ep)
                  else mpr_time in
  if negb (ep_mprt_max ep =? 0) && (ep_mprt_max ep <? mpr_time)
  then ep_mprt_max ep else mpr_time.

(** Frame-length reconciliation; [None] on an invalid memory access. *)
Definition mctp_reconcile (resp : mi_resp) (micbuf : list byte) (len : nat)
  : option mi_resp :=
  let hl := rs_hdr_len resp in
  let dl := rs_data_len resp in
  if (len =? hl + dl + 4)%nat then
    Some (MiResp (rs_hdr resp) hl (rs_data resp) dl (le32_decode micbuf))
  else if (len <? hl + 4)%nat then
    let hl' := (len - 4)%nat in
    match read_bytes (rs_hdr resp) hl' 4 with
    | None => None
    | Some mic => Some (MiResp (rs_hdr resp) hl' (rs_data resp) 0 (le32_decode mic))
    end
  else
    let dl' := (len - hl - 4)%nat in
    match read_bytes (rs_data resp) dl' 4 with
    | None => None
    | Some mic => Some (MiResp (rs_hdr resp) hl (rs_data resp) dl' (le32_decode mic))
    end.

(** How the receive part left [nvme_mi_mctp_submit]: through [out:] (which
    drops the tag), by a direct [return], by running out of scripted socket
    answers, or by an invalid memory access. *)
Inductive rx_exit :=
| XOut (rc : Z) (err : option Z) (resp : mi_resp) (ev : list mctp_event)
| XReturn (rc : Z) (err : option Z) (resp : mi_resp) (ev : list mctp_event)
| XStuck (ev : list mctp_event)
| XFault (ev : list mctp_event).

(** The code from [retry:] to [out:]. *)
Fixpoint mctp_retry (ep : mi_ep) (script : list poll_outcome) (timeout : Z)
  (resp : mi_resp) (micbuf : list byte) (ev : list mctp_event) : rx_exit :=
  match script with
  | [] => XStuck ev
  | p :: rest =>
    let ev := ev ++ [EvPoll timeout] in
    match p with
    | PollFail e =>
      if e =? EINTR then mctp_retry ep rest timeout resp micbuf ev
      else XReturn (-1) (Some e) resp ev
    | PollTimeout => XReturn (-1) (Some ETIMEDOUT) resp ev
    | PollReady r =>
      let ev := ev ++ [EvRecv] in
      match r with
      | RecvFail e => XOut (-1) (Some e) resp ev
      | RecvMsg m =>
        match mctp_rx_frame resp micbuf m with
        | None => XOut (-1) (Some EIO) resp ev
        | Some (len, resp, micbuf) =>
          if (len <? 8 + 4)%nat then XOut (-1) (Some EPROTO) resp ev
          else if negb (Nat.land len 3 =? 0)%nat then XOut (-1) (Some EPROTO) resp ev
          else
          match nvme_mi_mctp_resp_is_mpr resp len with
          | None => XFault ev
          | Some (Some mpr_time) =>
            mctp_retry ep rest (to_int32 (mpr_wait ep mpr_time)) resp micbuf ev
          | Some None =>
            match mctp_reconcile resp micbuf len with
            | None => XFault ev
            | Some resp => XOut 0 None resp ev
            end
          end
        end
      end
    end
  end.

Inductive mctp_outcome :=
| MDone (rc : Z) (err : option Z) (resp : mi_resp) (ev : list mctp_event)
| MStuck (ev : list mctp_event)
| MFault (ev : list mctp_event).

Definition nvme_mi_mctp_submit (ep : mi_ep) (env : mctp_env) (req : mi_req)
  (resp : mi_resp) : mctp_outcome :=
  if negb (ep_is_mctp ep) then MDone (-1) (Some EINVAL) resp []
  else if (rs_hdr_len resp <? sizeof_msg_resp)%nat then
    MDone (-1) (Some EINVAL) resp []
  else
  let tag := nvme_mi_mctp_tag_alloc env in
  let ev := [EvTagAlloc tag; EvSend tag] in
  let micbuf := le32_encode (rq_mic req) in
  let x := match env_send env with
           | Some e => XOut (-1) (Some e) resp ev
           | None =>
             let timeout := to_int32 (if ep_timeout ep =? 0 then u32_mask
                                      else ep_timeout ep) in
             mctp_retry ep (env_script env) timeout resp micbuf ev
           end in
  match x with
  | XOut rc err resp ev => MDone rc err resp (ev ++ [EvTagDrop tag])
  | XReturn rc err resp ev => MDone rc err resp ev
  | XStuck ev => MStuck ev
  | XFault ev => MFault ev
  end.

(** Number of drop calls in a trace. *)
Fixpoint drops (ev : list mctp_event) : nat :=
  match ev with
  | [] => 0
  | EvTagDrop _ :: r => S (drops r)
  | _ :: r => drops r
  end.

(** [nvme_mi_ep_set_timeout] (mi.c) with the transport's [check_timeout]
    hook, if it has one; the MCTP transport has none. *)
Definition nvme_mi_ep_set_timeout (check_timeout : option (mi_ep -> Z -> Z))
  (ep : mi_ep) (timeout_ms : Z) : Z * mi_ep :=
  let rc := match check_timeout with
            | Some f => f ep timeout_ms
            | None => 0
            end in
  if negb (rc =? 0) then (rc, ep)
  else (0, MiEp (ep_is_mctp ep) timeout_ms (ep_mprt_max ep)).

(** The events of an exit and of an outcome. *)
Definition rx_trace (x : rx_exit) : list mctp_event :=
  match x with
  | XOut _ _ _ ev | XReturn _ _ _ ev | XStuck ev | XFault ev => ev
  end.

Definition mctp_trace (o : mctp_outcome) : list mctp_event :=
  match o with
  | MDone _ _ _ ev | MStuck ev | MFault ev => ev
  end.

End Mctp.

(** ** Test fixtures *)

(** A well-behaved device behind a MIC-enabled transport: it answers every
    request with a response of the advertised sizes, a valid header with the
    given status, a data pattern, and a correct MIC. *)
Definition device_resp (status : byte) (req : mi_req) (resp : mi_resp) : mi_resp :=
  let h := set_u8 (rs_hdr resp) 0 NVME_MI_MSGTYPE_NVME in
  let h := set_u8 h 1 (Z.lor 0x80 (Z.land (hdr_byte (rq_hdr req) 1) 0x7f)) in
  let h := set_u8 h OFF_STATUS status in
  let d := repeat 0xab (rs_data_len resp) in
  let crc := nvme_mi_crc32_update 0xffffffff (span h (rs_hdr_len resp)) in
  let crc := nvme_mi_crc32_update crc d in
  MiResp h (rs_hdr_len resp) d (rs_data_len resp) (lnot32 crc).

Definition device (status : byte) : transport :=
  Transport true (fun req resp => (0, None, device_resp status req resp)).

(** The same device, with the MIC of its response corrupted on the way. *)
Definition corrupting_device : transport :=
  Transport true (fun req resp =>
    let r := device_resp 0 req resp in
    (0, None, MiResp (rs_hdr r) (rs_hdr_len r) (rs_data r) (rs_data_len r)
                     (Z.lxor (rs_mic r) 1))).

(** A well-behaved device answering with the given payload (padded with
    zeros to the advertised data length). *)
Definition payload_device (status : byte) (payload : list byte) : transport :=
  Transport true (fun req resp =>
    let h := set_u8 (rs_hdr resp) 0 NVME_MI_MSGTYPE_NVME in
    let h := set_u8 h 1 (Z.lor 0x80 (Z.land (hdr_byte (rq_hdr req) 1) 0x7f)) in
    let h := set_u8 h OFF_STATUS status in
    let d := firstn (rs_data_len resp) (payload ++ repeat 0 (rs_data_len resp)) in
    let crc := nvme_mi_crc32_update 0xffffffff (span h (rs_hdr_len resp)) in
    let crc := nvme_mi_crc32_update crc d in
    (0, None, MiResp h (rs_hdr_len resp) d (rs_data_len resp) (lnot32 crc))).

(** A controller list with [num = 3] and identifiers 1, 0, 3. *)
Definition ctrl_list_payload : list byte := [3; 0; 1; 0; 0; 0; 3; 0].

Definition log_args (len : Z) (rae : bool) : get_log_args :=
  GetLogArgs 0 sizeof_get_log_args 2 len 0xffffffff 0 0 0 0 rae false
    (repeat 0 (Z.to_nat len)).

Module MctpFixtures.
Import Mctp.

Definition ep0 : mi_ep := MiEp true 1000 0.

(** A kernel with explicit tag allocation, a send that succeeds, and the
    given socket answers. *)
Definition env_of (script : list poll_outcome) : mctp_env :=
  MctpEnv (Some 0x0c) None script.

(** A 12-byte More Processing Required response ([mprt = 5], i.e. 500 ms),
    as the message bytes after the type byte followed by its MIC. *)
Definition mpr_msg : list byte :=
  [NVME_MI_MSGTYPE_NVME; 0x88; 0; 0; NVME_MI_RESP_MPR; 0; 5; 0].

Definition mpr_datagram : list byte :=
  tl mpr_msg ++ le32_encode (lnot32 (nvme_mi_crc32_update 0xffffffff mpr_msg)).

(** The request and the response frame of [nvme_mi_mi_config_set]: an
    8-byte MI response header and no data buffer. *)
Definition cfg_req : mi_req :=
  nvme_mi_calc_req_mic
    (MiReq [NVME_MI_MSGTYPE_NVME; 0x08; 0; 0; 3; 0; 0; 0; 0; 0; 0; 0; 0; 0; 0; 0]
           16 [] 0 0).

Definition cfg_resp : mi_resp := MiResp (repeat 0 8) 8 [] 0 0.

(** A response frame with only a 4-byte message header. *)
Definition short_resp : mi_resp := MiResp (repeat 0 4) 4 [] 0 0.

(** An Admin-sized response frame (20-byte header, 8 bytes of data) and a
    27-byte datagram: 28 bytes with the type byte, so the data is truncated
    to 4 bytes. *)
Definition rx_resp : mi_resp := MiResp (repeat 0 20) 20 (repeat 0 8) 8 0.

Definition rx_datagram : list byte := map Z.of_nat (seq 1 27).

End MctpFixtures.

(** ** Statements *)

(** The CRC fold as the specification words it: XOR the byte in, then eight
    times shift right by one and XOR the polynomial when the bit shifted out
    was 1. *)
Definition crc_fold_spec (acc : Z) (bytes : list byte) : Z :=
  fold_left (fun acc b =>
    Nat.iter 8 (fun c => Z.lxor (Z.shiftr c 1) (if Z.odd c then 0x82F63B78 else 0))
      (Z.lxor acc b)) bytes acc.

(** The six length/alignment invariants checked by [nvme_mi_submit]. *)
Definition submit_prechecks (req : mi_req) (resp : mi_resp) : Prop :=
  ((sizeof_msg_hdr <= rq_hdr_len req) /\ rq_hdr_len req mod 4 = 0 /\
   rq_data_len req mod 4 = 0 /\
   (sizeof_msg_hdr <= rs_hdr_len resp) /\ rs_hdr_len resp mod 4 = 0 /\
   rs_data_len resp mod 4 = 0)%nat.

(** The argument checks of [nvme_mi_admin_xfer] that precede the submit,
    with those of [nvme_mi_submit] on the frames it builds. *)
Definition xfer_accepts (req_data_size : nat) (off : Z) (resp_data_size : nat) : Prop :=
  (resp_data_size <= 4096)%nat /\ off <= 0xffffffff /\ off mod 4 = 0 /\
  (req_data_size = 0 \/ resp_data_size = 0)%nat /\
  (resp_data_size = 0%nat -> off = 0) /\
  (req_data_size mod 4 = 0)%nat /\ (resp_data_size mod 4 = 0)%nat.

(** The response lengths after an MCTP exchange, against those before. *)
Definition lens_within (resp resp' : mi_resp) (rc : Z) : Prop :=
  (rs_hdr_len resp' <= rs_hdr_len resp)%nat /\ (rs_data_len resp' <= rs_data_len resp)%nat /\
  (rc <> 0 -> rs_hdr_len resp' = rs_hdr_len resp /\ rs_data_len resp' = rs_data_len resp).


(** * Properties *)

(** ** CRC engine *)


Lemma crc_shifts_iter : forall c,
  crc_shifts 8 c =
  Nat.iter 8 (fun c => Z.lxor (Z.shiftr c 1) (if Z.odd c then 0x82F63B78 else 0)) c.
Proof.
  intro c. cbn [crc_shifts Nat.iter]. unfold crc_shift. rewrite !Z.bit0_odd. reflexivity.
Qed.

Lemma crc32_update_app : forall h p acc,
  nvme_mi_crc32_update acc (h ++ p) =
  nvme_mi_crc32_update (nvme_mi_crc32_update acc h) p.
Proof.
  induction h as [| b h IH]; intros p acc; simpl; [reflexivity | apply IH].
Qed.

Lemma crc32_update_spec : forall bytes acc,
  nvme_mi_crc32_update acc bytes = crc_fold_spec acc bytes.
Proof.
  unfold crc_fold_spec.
  induction bytes as [| b r IH]; intro acc;
    cbn [nvme_mi_crc32_update fold_left]; [reflexivity |].
  rewrite IH, crc_shifts_iter. reflexivity.
Qed.

(** C7: for all byte spans [h] and [p], the frame MIC computed by the library
    is [~crc_update(crc_update(0xFFFFFFFF, h), p)], where [crc_update] is the
    byte-wise XOR / eight-step reflected fold with polynomial 0x82F63B78; it
    is the identity on a zero-length span, and the MIC is the complement of
    the fold over [h ++ p]. *)
Theorem frame_mic_crc32c : forall h p,
  rq_mic (nvme_mi_calc_req_mic (MiReq h (length h) p (length p) 0)) =
    lnot32 (crc_fold_spec (crc_fold_spec 0xffffffff h) p)
  /\ rq_mic (nvme_mi_calc_req_mic (MiReq h (length h) p (length p) 0)) =
    lnot32 (nvme_mi_crc32_update 0xffffffff (h ++ p))
  /\ (forall acc, nvme_mi_crc32_update acc [] = acc).
Proof.
  intros h p. unfold nvme_mi_calc_req_mic, span. simpl.
  rewrite !firstn_all.
  split; [| split].
  - rewrite !crc32_update_spec. reflexivity.
  - rewrite crc32_update_app. reflexivity.
  - reflexivity.
Qed.

(** ** Submit pipeline *)

Lemma land3_mod4 : forall n, (Nat.land n 3 = n mod 4)%nat.
Proof. intro n. exact (Nat.land_ones n 2). Qed.


Lemma nvme_mi_submit_prechecks_cases : forall tr req resp,
  (submit_prechecks req resp /\ sr_calls (nvme_mi_submit tr req resp) = 1%nat) \/
  (~ submit_prechecks req resp /\
   nvme_mi_submit tr req resp = SubmitResult (-1) (Some EINVAL) req resp 0).
Proof.
  intros tr req resp. unfold nvme_mi_submit, submit_prechecks.
  rewrite !land3_mod4.
  destruct (Nat.ltb_spec (rq_hdr_len req) sizeof_msg_hdr);
    [right; split; [intros (? & _); lia | reflexivity] |].
  destruct (Nat.eqb_spec (rq_hdr_len req mod 4) 0); cbn [negb];
    [| right; split; [intros (_ & ? & _); congruence | reflexivity]].
  destruct (Nat.eqb_spec (rq_data_len req mod 4) 0); cbn [negb];
    [| right; split; [intros (_ & _ & ? & _); congruence | reflexivity]].
  destruct (Nat.ltb_spec (rs_hdr_len resp) sizeof_msg_hdr);
    [right; split; [intros (_ & _ & _ & ? & _); lia | reflexivity] |].
  destruct (Nat.eqb_spec (rs_hdr_len resp mod 4) 0); cbn [negb];
    [| right; split; [intros (_ & _ & _ & _ & ? & _); congruence | reflexivity]].
  destruct (Nat.eqb_spec (rs_data_len resp mod 4) 0); cbn [negb];
    [| right; split; [intros (_ & _ & _ & _ & _ & ?); congruence | reflexivity]].
  left. split; [repeat split; assumption |].
  destruct (t_submit tr _ resp) as [[rc err] resp'].
  destruct (negb (rc =? 0)); [reflexivity |].
  destruct (negb (_ =? 0)); [reflexivity |].
  destruct (_ <? _)%nat; [reflexivity |].
  destruct (negb _); [reflexivity |].
  destruct (_ =? 0); [reflexivity |].
  destruct (negb _); reflexivity.
Qed.

(** C4: for every request/response pair given to [nvme_mi_submit], the
    transport is called (once) only when all six length/alignment invariants
    hold; any violation returns -1 with errno EINVAL, with no transport call
    and the frames untouched (no MIC stamped). *)
Theorem submit_transport_only_after_prechecks : forall tr req resp,
  (submit_prechecks req resp /\ sr_calls (nvme_mi_submit tr req resp) = 1%nat) \/
  (~ submit_prechecks req resp /\
   sr_rc (nvme_mi_submit tr req resp) = -1 /\
   sr_errno (nvme_mi_submit tr req resp) = Some EINVAL /\
   sr_calls (nvme_mi_submit tr req resp) = 0%nat /\
   sr_req (nvme_mi_submit tr req resp) = req).
Proof.
  intros tr req resp.
  destruct (nvme_mi_submit_prechecks_cases tr req resp) as [H | [Hn E]];
    [left; exact H | right; rewrite E; auto].
Qed.

(** C8: the generic Admin transfer rejects a request that carries both
    request data and a response data size: -1 with errno EINVAL, and no
    transport call. *)
Theorem admin_xfer_bidirectional_rejected :
  forall tr admin_req req_data req_data_size admin_resp resp_data off resp_data_size,
  (0 < req_data_size)%nat -> (0 < resp_data_size)%nat ->
  let r := nvme_mi_admin_xfer tr admin_req req_data req_data_size
             admin_resp resp_data off resp_data_size in
  xr_rc r = -1 /\ xr_errno r = Some EINVAL /\ xr_calls r = 0%nat.
Proof.
  intros tr areq rd rds aresp pd off pds H1 H2 r. subst r.
  unfold nvme_mi_admin_xfer.
  destruct (4096 <? pds)%nat; [auto |].
  destruct (0xffffffff <? off); [auto |].
  destruct (negb (Z.land off 3 =? 0)); [auto |].
  replace (negb (rds =? 0)%nat && negb (pds =? 0)%nat) with true; [auto |].
  symmetry. apply andb_true_intro; split; apply negb_true_iff, Nat.eqb_neq; lia.
Qed.

(** A sample Admin transfer with request and response data (S6). *)
Lemma admin_xfer_bidirectional_rejected_witness :
  (0 < 8)%nat /\ (0 < 8)%nat /\
  xr_rc (nvme_mi_admin_xfer (device 0) (repeat 0 68) (repeat 1 8) 8
           (repeat 0 20) (repeat 0 8) 0 8) = -1.
Proof.
  split; [lia | split; [lia |]].
  apply (admin_xfer_bidirectional_rejected (device 0) (repeat 0 68) (repeat 1 8) 8
           (repeat 0 20) (repeat 0 8) 0 8); lia.
Defined.

(** C9: the MCTP transport fails with -1 / EINVAL, before allocating a tag or
    sending anything, whenever the response header buffer is smaller than a
    generic response ([struct nvme_mi_msg_resp]); such a frame may still pass
    every pre-check of [nvme_mi_submit], which then hands it to the
    transport. *)
Theorem mctp_submit_short_resp_hdr_rejected : forall ep env req resp,
  (rs_hdr_len resp < sizeof_msg_resp)%nat ->
  Mctp.nvme_mi_mctp_submit ep env req resp = Mctp.MDone (-1) (Some EINVAL) resp []
  /\ (submit_prechecks req resp ->
      forall tr, sr_calls (nvme_mi_submit tr req resp) = 1%nat).
Proof.
  intros ep env req resp Hlt. split.
  - unfold Mctp.nvme_mi_mctp_submit.
    destruct (negb (Mctp.ep_is_mctp ep)); [reflexivity |].
    apply Nat.ltb_lt in Hlt. rewrite Hlt. reflexivity.
  - intros Hpre tr.
    destruct (nvme_mi_submit_prechecks_cases tr req resp) as [[_ H] | [Hn _]];
      [exact H | contradiction].
Qed.

(** A 4-byte response header: accepted by [nvme_mi_submit]'s checks, refused
    by the MCTP transport. *)
Lemma mctp_submit_short_resp_hdr_rejected_witness :
  (rs_hdr_len MctpFixtures.short_resp < sizeof_msg_resp)%nat /\
  submit_prechecks MctpFixtures.cfg_req MctpFixtures.short_resp /\
  Mctp.nvme_mi_mctp_submit MctpFixtures.ep0 (MctpFixtures.env_of [])
    MctpFixtures.cfg_req MctpFixtures.short_resp
  = Mctp.MDone (-1) (Some EINVAL) MctpFixtures.short_resp [].
Proof.
  assert (H : (rs_hdr_len MctpFixtures.short_resp < sizeof_msg_resp)%nat)
    by (vm_compute; lia).
  split; [exact H | split].
  - unfold submit_prechecks; vm_compute; repeat split; lia.
  - exact (proj1 (mctp_submit_short_resp_hdr_rejected MctpFixtures.ep0
                    (MctpFixtures.env_of []) MctpFixtures.cfg_req _ H)).
Defined.

(** ** Get Log Page *)

(** C10: with a valid [args_size] and [args->len = 0], [nvme_mi_admin_get_log]
    makes no inner call and no transport exchange, returns 0 and leaves
    [args] (in particular [len = 0]) unchanged. *)
Theorem get_log_empty_request : forall tr ctrl_id args,
  sizeof_get_log_args <= ga_args_size args -> ga_len args = 0 ->
  nvme_mi_admin_get_log tr ctrl_id args = Some (GetLogResult 0 None args [] []).
Proof.
  intros tr ctrl_id args Hsz Hlen. unfold nvme_mi_admin_get_log.
  replace (ga_args_size args <? sizeof_get_log_args) with false
    by (symmetry; apply Z.ltb_ge; lia).
  rewrite Hlen. cbn.
  destruct args; cbn in *; subst; reflexivity.
Qed.

Lemma get_log_empty_request_witness :
  sizeof_get_log_args <= ga_args_size (log_args 0 true) /\ ga_len (log_args 0 true) = 0 /\
  nvme_mi_admin_get_log (device 0) 1 (log_args 0 true)
  = Some (GetLogResult 0 None (log_args 0 true) [] []).
Proof.
  split; [vm_compute; discriminate | split; [reflexivity |]].
  apply get_log_empty_request; [vm_compute; discriminate | reflexivity].
Defined.

(** C1 (failing input): an 8192-byte Get Log Page against a device that
    answers every chunk in full. The first inner call (offset 0, 4096 bytes,
    not final, rae bit forced) is exchanged; the second inner call (offset
    4096, 4096 bytes, final) is rejected by [__nvme_mi_admin_get_log]'s
    [offset >= len] check before any exchange, so the request fails with -1 /
    EINVAL, with one exchange made and [args->len] left at 8192. *)
Theorem get_log_8192_second_chunk_rejected :
  match nvme_mi_admin_get_log (device 0) 1 (log_args 8192 false) with
  | Some r =>
    gl_rc r = -1 /\ gl_errno r = Some EINVAL /\ ga_len (gl_args r) = 8192 /\
    gl_inner r = [(0, 4096, false); (4096, 4096, true)] /\
    map (fun q => Z.testbit (get_le32 (rq_hdr q) OFF_CDW10) 15) (gl_sent r) = [true]
  | None => False
  end.
Proof. vm_compute. repeat split. Qed.

(** ** MCTP transport *)

Module MctpProps.
Import Mctp MctpFixtures.

(** C2 (failing input): the tag allocated by [nvme_mi_mctp_submit] is not
    dropped when [poll] times out or fails: those two exits [return -1]
    directly instead of going through [out:]. Every other exit goes through
    [out:] and drops it once, here a receive failure. *)
Theorem mctp_poll_exits_keep_tag :
  nvme_mi_mctp_submit ep0 (env_of [PollTimeout]) cfg_req cfg_resp
  = MDone (-1) (Some ETIMEDOUT) cfg_resp [EvTagAlloc 12; EvSend 12; EvPoll 1000]
  /\ nvme_mi_mctp_submit ep0 (env_of [PollFail EIO]) cfg_req cfg_resp
  = MDone (-1) (Some EIO) cfg_resp [EvTagAlloc 12; EvSend 12; EvPoll 1000]
  /\ drops [EvTagAlloc 12; EvSend 12; EvPoll 1000] = 0%nat
  /\ nvme_mi_mctp_submit ep0 (env_of [PollReady (RecvFail EIO)]) cfg_req cfg_resp
  = MDone (-1) (Some EIO) cfg_resp
      [EvTagAlloc 12; EvSend 12; EvPoll 1000; EvRecv; EvTagDrop 12].
Proof. vm_compute. repeat split. Qed.

(** C6 (failing input): [nvme_mi_mi_config_set]'s response frame (8-byte
    header, no data buffer) receiving a valid 12-byte MPR response: its status
    is MPR and the MIC received (the last four bytes) matches the CRC of the
    MPR message, but [nvme_mi_mctp_resp_is_mpr] reads the MIC through
    [resp->data], which has no storage: an invalid access instead of an MPR
    wait. With a 12-byte header buffer the same datagram is classified as an
    MPR and the next wait is 500 ms. *)
Theorem mctp_mpr_without_data_buffer :
  length (NVME_MI_MSGTYPE_NVME :: mpr_datagram) = 12%nat
  /\ nth 4 (NVME_MI_MSGTYPE_NVME :: mpr_datagram) 0 = NVME_MI_RESP_MPR
  /\ le32_decode (skipn 8 (NVME_MI_MSGTYPE_NVME :: mpr_datagram))
     = lnot32 (nvme_mi_crc32_update 0xffffffff
                 (firstn 8 (NVME_MI_MSGTYPE_NVME :: mpr_datagram)))
  /\ nvme_mi_mctp_submit ep0 (env_of [PollReady (RecvMsg mpr_datagram)]) cfg_req cfg_resp
     = MFault [EvTagAlloc 12; EvSend 12; EvPoll 1000; EvRecv]
  /\ match nvme_mi_mctp_submit ep0
             (env_of [PollReady (RecvMsg mpr_datagram); PollTimeout]) cfg_req
             (MiResp (repeat 0 12) 12 [] 0 0) with
     | MDone _ _ _ ev => ev = [EvTagAlloc 12; EvSend 12; EvPoll 1000; EvRecv; EvPoll 500]
     | _ => False
     end.
Proof. vm_compute. repeat split. Qed.

End MctpProps.

(** C3 (failing input): a response whose MIC does not verify makes
    [nvme_mi_submit] return 1 (the result of [nvme_mi_verify_resp_mic]), a
    positive value; [nvme_mi_mi_config_set] passes it on, and returns the
    same 1 for a device status of 1. *)
Theorem crc_mismatch_positive_return :
  sr_rc (nvme_mi_submit corrupting_device MctpFixtures.cfg_req MctpFixtures.cfg_resp) = 1
  /\ sr_calls (nvme_mi_submit corrupting_device MctpFixtures.cfg_req MctpFixtures.cfg_resp) = 1%nat
  /\ nvme_mi_mi_config_set corrupting_device (repeat 0 8) 0 0 = 1
  /\ nvme_mi_mi_config_set (device 1) (repeat 0 8) 0 0 = 1.
Proof. vm_compute. repeat split. Qed.

(** ** MCTP frame-length reconciliation *)

Module MctpRecon.
Import Mctp.

Lemma take4_at : forall (X Y : list byte) (a : nat),
  length X = (a + 4)%nat -> firstn 4 (skipn a (X ++ Y)) = skipn a X.
Proof.
  intros X Y a HX.
  rewrite skipn_app, firstn_app.
  assert (Hs : length (skipn a X) = 4%nat) by (rewrite length_skipn; lia).
  rewrite Hs, firstn_all2 by lia.
  replace (4 - 4)%nat with 0%nat by lia. rewrite firstn_O, app_nil_r. reflexivity.
Qed.

Lemma mod4_mul : forall n, (n mod 4 = 0)%nat -> exists q, n = (4 * q)%nat.
Proof.
  intros n H. exists (n / 4)%nat. pose proof (Nat.div_mod_eq n 4). lia.
Qed.

(** After the datagram has been scattered and the type byte restored, the
    reconciliation finds the split whose lengths add up to [L] and takes the
    last four bytes of the frame as the MIC. *)
Lemma reconcile_after_rx : forall resp micbuf m L resp1 micbuf1,
  (8 <= rs_hdr_len resp)%nat ->
  (rs_hdr_len resp mod 4 = 0)%nat -> (rs_data_len resp mod 4 = 0)%nat ->
  length (rs_hdr resp) = rs_hdr_len resp ->
  length (rs_data resp) = rs_data_len resp ->
  length micbuf = 4%nat ->
  mctp_rx_frame resp micbuf m = Some (L, resp1, micbuf1) ->
  (L mod 4 = 0)%nat -> (12 <= L <= rs_hdr_len resp + rs_data_len resp + 4)%nat ->
  exists resp',
    mctp_reconcile resp1 micbuf1 L = Some resp' /\
    (rs_hdr_len resp' + rs_data_len resp' + 4 = L)%nat /\
    rs_mic resp' =
      le32_decode (skipn (L - 4) (firstn L (Z.lor MCTP_TYPE_NVME MCTP_TYPE_MIC :: m))).
Proof.
  intros [hdr hl data dl mic0] micbuf m L resp1 micbuf1.
  cbn [rs_hdr rs_hdr_len rs_data rs_data_len].
  intros Hh Hhm Hdm Hhlen Hdlen Hmic Hrx HLm HL.
  destruct hdr as [| b0 t]; [cbn in Hhlen; lia |].
  cbn [length] in Hhlen.
  unfold mctp_rx_frame, mctp_recvmsg in Hrx. cbn [rs_hdr rs_hdr_len rs_data rs_data_len] in Hrx.
  set (x := Z.lor MCTP_TYPE_NVME MCTP_TYPE_MIC) in *.
  set (p1 := firstn (hl - 1) m) in *.
  set (p2 := firstn dl (skipn (hl - 1) m)) in *.
  set (p3 := firstn 4 (skipn (hl - 1 + dl) m)) in *.
  assert (E1 : length p1 = Nat.min (hl - 1) (length m))
    by (unfold p1; rewrite length_firstn; reflexivity).
  assert (E2 : length p2 = Nat.min dl (length m - (hl - 1)))
    by (unfold p2; rewrite length_firstn, length_skipn; reflexivity).
  assert (E3 : length p3 = Nat.min 4 (length m - (hl - 1 + dl)))
    by (unfold p3; rewrite length_firstn, length_skipn; reflexivity).
  destruct (length p1 + length p2 + length p3 =? 0)%nat eqn:Hz; [discriminate |].
  injection Hrx as HL' Hr1 Hm1. subst resp1 micbuf1.
  set (k := (length p1 + length p2 + length p3)%nat) in *.
  assert (Hk : L = S k) by (subst L; reflexivity). clear HL'.
  destruct (mod4_mul _ HLm) as [qL HqL].
  destruct (mod4_mul _ Hhm) as [qh Hqh].
  destruct (mod4_mul _ Hdm) as [qd Hqd].
  unfold mctp_reconcile. cbn [rs_hdr rs_hdr_len rs_data rs_data_len with_hdr].
  destruct (Nat.eqb_spec L (hl + dl + 4)) as [HA | HA].
  - (* exact length: the MIC is in the [mic] local *)
    eexists; split; [reflexivity |]. cbn [rs_hdr_len rs_data_len rs_mic].
    split; [lia |].
    assert (Hm3 : length p3 = 4%nat) by lia.
    unfold overlay. rewrite Hm3, (skipn_all2 micbuf) by lia. rewrite app_nil_r.
    f_equal.
    replace (L - 4)%nat with (S (k - 4)) by lia. rewrite Hk. cbn [firstn skipn].
    rewrite skipn_firstn_comm.
    replace (k - (k - 4))%nat with 4%nat by lia.
    unfold p3. f_equal. f_equal. lia.
  - destruct (Nat.ltb_spec L (hl + 4)) as [HB | HB].
    + (* short header: the MIC is at the end of the received header bytes *)
      assert (Hmk : length m = k) by lia.
      assert (Hp1 : p1 = m) by (unfold p1; apply firstn_all2; lia).
      assert (Hs : forall r, set_u8 (b0 :: r) 0 x = x :: r) by reflexivity.
      rewrite Hs, Hp1. unfold read_bytes, overlay.
      match goal with
      | |- context [(?a <=? ?n)%nat] =>
        destruct (Nat.leb_spec a n) as [_ | Hc];
          [| exfalso; cbn [length] in Hc; rewrite length_app, length_skipn in Hc; lia]
      end.
      eexists; split; [reflexivity |]. cbn [rs_hdr_len rs_data_len rs_mic].
      split; [lia |]. f_equal.
      change (x :: m ++ skipn (length m) t) with ((x :: m) ++ skipn (length m) t).
      rewrite take4_at by (cbn [length]; lia).
      rewrite (firstn_all2 (n := L)) by (cbn [length]; lia). reflexivity.
    + (* full header, truncated data: the MIC is at the end of the data *)
      assert (Hmk : length m = k) by lia.
      assert (Hp2 : p2 = skipn (hl - 1) m)
        by (unfold p2; apply firstn_all2; rewrite length_skipn; lia).
      assert (Hp2l : length p2 = (L - hl)%nat) by (rewrite Hp2, length_skipn; lia).
      unfold read_bytes, overlay.
      match goal with
      | |- context [(?a <=? ?n)%nat] =>
        destruct (Nat.leb_spec a n) as [_ | Hc];
          [| exfalso; rewrite length_app, length_skipn in Hc; lia]
      end.
      eexists; split; [reflexivity |]. cbn [rs_hdr_len rs_data_len rs_mic].
      split; [lia |]. f_equal.
      rewrite take4_at by lia.
      rewrite Hp2, skipn_skipn.
      rewrite (firstn_all2 (n := L)) by (cbn [length]; lia).
      replace (L - 4)%nat with (S (L - 5)) by lia. cbn [skipn].
      f_equal. lia.
Qed.

(** C5: a datagram received by [nvme_mi_mctp_submit] on a frame that
    [nvme_mi_submit] let through (header at least a generic response, lengths
    multiples of 4, buffers of the advertised sizes): when the received length
    [L] with the type byte restored is a multiple of 4 with
    [12 <= L <= hdr_len + data_len + 4] and the frame is not classified as an
    MPR, the submit succeeds with adjusted lengths [hdr_len' + data_len' + 4 =
    L] and a MIC equal to the little-endian decoding of the last four bytes
    received. *)
Theorem mctp_reconciled_frame : forall ep env req resp m rest L resp1 micbuf1,
  ep_is_mctp ep = true -> env_send env = None ->
  env_script env = PollReady (RecvMsg m) :: rest ->
  submit_prechecks req resp -> (sizeof_msg_resp <= rs_hdr_len resp)%nat ->
  length (rs_hdr resp) = rs_hdr_len resp ->
  length (rs_data resp) = rs_data_len resp ->
  mctp_rx_frame resp (le32_encode (rq_mic req)) m = Some (L, resp1, micbuf1) ->
  (L mod 4 = 0)%nat -> (12 <= L <= rs_hdr_len resp + rs_data_len resp + 4)%nat ->
  nvme_mi_mctp_resp_is_mpr resp1 L = Some None ->
  exists resp' ev,
    nvme_mi_mctp_submit ep env req resp = MDone 0 None resp' ev /\
    (rs_hdr_len resp' + rs_data_len resp' + 4 = L)%nat /\
    rs_mic resp' =
      le32_decode (skipn (L - 4) (firstn L (Z.lor MCTP_TYPE_NVME MCTP_TYPE_MIC :: m))).
Proof.
  intros ep env req resp m rest L resp1 micbuf1 Hep Hsend Hscript
    (_ & _ & _ & _ & Hhm & Hdm) Hh Hhl Hdl Hrx HLm HL Hmpr.
  assert (H8 : (8 <= rs_hdr_len resp)%nat) by (unfold sizeof_msg_resp in Hh; lia).
  destruct (reconcile_after_rx resp (le32_encode (rq_mic req)) m L resp1 micbuf1
              H8 Hhm Hdm Hhl Hdl eq_refl Hrx HLm HL)
    as [resp' [Hrec [Hsum Hmic]]].
  exists resp'. eexists. split; [| split; assumption].
  unfold nvme_mi_mctp_submit. rewrite Hep.
  replace (rs_hdr_len resp <? sizeof_msg_resp)%nat with false
    by (symmetry; apply Nat.ltb_ge; lia).
  cbn [negb]. rewrite Hsend, Hscript. cbn [mctp_retry]. rewrite Hrx.
  replace (L <? 8 + 4)%nat with false by (symmetry; apply Nat.ltb_ge; lia).
  rewrite land3_mod4, HLm. cbn [Nat.eqb negb].
  rewrite Hmpr, Hrec. reflexivity.
Qed.

Lemma mctp_reconciled_frame_witness :
  exists resp' ev,
    nvme_mi_mctp_submit MctpFixtures.ep0
      (MctpFixtures.env_of [PollReady (RecvMsg MctpFixtures.rx_datagram)])
      MctpFixtures.cfg_req MctpFixtures.rx_resp = MDone 0 None resp' ev /\
    (rs_hdr_len resp' + rs_data_len resp' + 4 = 28)%nat /\
    rs_mic resp' =
      le32_decode (skipn (28 - 4)
        (firstn 28 (Z.lor MCTP_TYPE_NVME MCTP_TYPE_MIC :: MctpFixtures.rx_datagram))).
Proof.
  eapply (mctp_reconciled_frame MctpFixtures.ep0
            (MctpFixtures.env_of [PollReady (RecvMsg MctpFixtures.rx_datagram)])
            MctpFixtures.cfg_req MctpFixtures.rx_resp MctpFixtures.rx_datagram [] 28).
  - reflexivity.
  - reflexivity.
  - reflexivity.
  - unfold submit_prechecks; vm_compute; repeat split; lia.
  - vm_compute; lia.
  - reflexivity.
  - reflexivity.
  - reflexivity.
  - reflexivity.
  - vm_compute; lia.
  - reflexivity.
Defined.

End MctpRecon.

(** ** Further properties *)

(** A response passes [nvme_mi_verify_resp_mic] exactly when its MIC
    equals the MIC [nvme_mi_calc_req_mic] computes over the same header and
    data spans. *)
Theorem verify_resp_mic_matches_calc : forall h hl d dl mic,
  nvme_mi_verify_resp_mic (MiResp h hl d dl mic) = 0 <->
  mic = rq_mic (nvme_mi_calc_req_mic (MiReq h hl d dl 0)).
Proof.
  intros. unfold nvme_mi_verify_resp_mic, nvme_mi_calc_req_mic. cbn [rs_hdr rs_hdr_len rs_data rs_data_len rs_mic rq_hdr rq_hdr_len rq_data rq_data_len rq_mic set_req_mic].
  match goal with |- context [Z.eqb mic ?c] => destruct (Z.eqb_spec mic c) end; split; congruence.
Qed.








(** When [nvme_mi_submit] returns 0, the frames met the six prechecks, the
    transport was called once, and the response has a full message header,
    the NVMe-MI message type, the response bit set, the request's command
    slot and, with MIC enabled, a MIC that verifies. *)
Theorem submit_success_guarantees : forall tr req resp,
  sr_rc (nvme_mi_submit tr req resp) = 0 ->
  let r := nvme_mi_submit tr req resp in
  submit_prechecks req resp /\ sr_calls r = 1%nat /\
  (sizeof_msg_hdr <= rs_hdr_len (sr_resp r))%nat /\
  hdr_byte (rs_hdr (sr_resp r)) 0 = NVME_MI_MSGTYPE_NVME /\
  Z.land (hdr_byte (rs_hdr (sr_resp r)) 1) 0x80 <> 0 /\
  Z.land (hdr_byte (rs_hdr (sr_resp r)) 1) 1 = Z.land (hdr_byte (rq_hdr req) 1) 1 /\
  (mic_enabled tr = true -> nvme_mi_verify_resp_mic (sr_resp r) = 0).
Proof.
  intros tr req resp H r. subst r.
  destruct (nvme_mi_submit_prechecks_cases tr req resp) as [[Hpre _] | [_ E]];
    [| rewrite E in H; discriminate].
  split; [exact Hpre |].
  unfold nvme_mi_submit in *.
  repeat match type of H with
  | context [if ?b then _ else _] => destruct b eqn:?
  | context [match ?p with (_, _) => _ end] => destruct p as [[? ?] ?] eqn:?
  end; cbn in H |- *; try discriminate;
  try (subst; cbn in *; discriminate).
  all: repeat match goal with
    | Hb : negb _ = false |- _ => apply negb_false_iff in Hb
    | Hb : negb _ = true |- _ => apply negb_true_iff in Hb
    | Hb : (_ =? _) = true |- _ => apply Z.eqb_eq in Hb
    | Hb : (_ =? _) = false |- _ => apply Z.eqb_neq in Hb
    | Hb : (_ <? _)%nat = false |- _ => apply Nat.ltb_ge in Hb
    end.
  all: try contradiction.
  all: repeat split; auto; try (intros; discriminate).
Qed.

Lemma submit_prechecks_pass : forall tr req resp,
  submit_prechecks req resp ->
  nvme_mi_submit tr req resp =
  (let req := if mic_enabled tr then nvme_mi_calc_req_mic req else req in
   let '(rc, err, resp) := t_submit tr req resp in
   if negb (rc =? 0) then SubmitResult rc err req resp 1
   else
   let rc := if mic_enabled tr then nvme_mi_verify_resp_mic resp else 0 in
   if negb (rc =? 0) then SubmitResult rc err req resp 1
   else if (rs_hdr_len resp <? sizeof_msg_hdr)%nat then
     SubmitResult (-1) (Some EPROTO) req resp 1
   else if negb (hdr_byte (rs_hdr resp) 0 =? NVME_MI_MSGTYPE_NVME) then
     SubmitResult (-1) (Some EPROTO) req resp 1
   else if Z.land (hdr_byte (rs_hdr resp) 1) (Z.shiftl NVME_MI_ROR_RSP 7) =? 0 then
     SubmitResult (-1) (Some EIO) req resp 1
   else if negb (Z.land (hdr_byte (rs_hdr resp) 1) 1
                 =? Z.land (hdr_byte (rq_hdr req) 1) 1) then
     SubmitResult (-1) (Some EIO) req resp 1
   else SubmitResult 0 err req resp 1).
Proof.
  intros tr req resp (H1 & H2 & H3 & H4 & H5 & H6).
  unfold nvme_mi_submit. rewrite !land3_mod4, H2, H3, H5, H6. cbn [Nat.eqb negb].
  replace (rq_hdr_len req <? sizeof_msg_hdr)%nat with false by (symmetry; apply Nat.ltb_ge; lia).
  replace (rs_hdr_len resp <? sizeof_msg_hdr)%nat with false by (symmetry; apply Nat.ltb_ge; lia).
  reflexivity.
Qed.

(** A non-zero return of the transport is passed on by [nvme_mi_submit]
    unchanged, with the transport's errno and response, and no check of the
    response is made. *)
Theorem submit_transport_failure_propagated : forall tr req resp rc err resp',
  submit_prechecks req resp ->
  t_submit tr (if mic_enabled tr then nvme_mi_calc_req_mic req else req) resp
    = (rc, err, resp') ->
  rc <> 0 ->
  nvme_mi_submit tr req resp =
    SubmitResult rc err (if mic_enabled tr then nvme_mi_calc_req_mic req else req) resp' 1.
Proof.
  intros tr req resp rc err resp' Hpre Ht Hrc.
  rewrite submit_prechecks_pass by exact Hpre. cbv zeta. rewrite Ht.
  apply Z.eqb_neq in Hrc. rewrite Hrc. reflexivity.
Qed.

Lemma submit_transport_failure_propagated_witness :
  let tr := Transport true (fun _ r => (-1, Some EIO, r)) in
  nvme_mi_submit tr MctpFixtures.cfg_req MctpFixtures.cfg_resp =
    SubmitResult (-1) (Some EIO) (nvme_mi_calc_req_mic MctpFixtures.cfg_req)
      MctpFixtures.cfg_resp 1.
Proof.
  intro tr.
  apply (submit_transport_failure_propagated tr MctpFixtures.cfg_req MctpFixtures.cfg_resp
           (-1) (Some EIO) MctpFixtures.cfg_resp).
  - unfold submit_prechecks; vm_compute; repeat split; lia.
  - reflexivity.
  - lia.
Defined.

Lemma land3_Z : forall z, Z.land z 3 = z mod 4.
Proof. intro z. exact (Z.land_ones z 2 ltac:(lia)). Qed.

Lemma calc_req_mic_lens : forall q,
  rq_hdr_len (nvme_mi_calc_req_mic q) = rq_hdr_len q /\
  rq_data_len (nvme_mi_calc_req_mic q) = rq_data_len q /\
  rq_hdr (nvme_mi_calc_req_mic q) = rq_hdr q /\
  rq_data (nvme_mi_calc_req_mic q) = rq_data q.
Proof. intro q. repeat split. Qed.

(** [nvme_mi_admin_xfer] calls the transport exactly once when its argument
    checks and the submit prechecks pass, and otherwise fails with EINVAL
    without a call and with [*resp_data_size] unchanged. *)
Theorem admin_xfer_reaches_transport_iff :
  forall tr admin_req req_data req_data_size admin_resp resp_data off resp_data_size,
  let r := nvme_mi_admin_xfer tr admin_req req_data req_data_size
             admin_resp resp_data off resp_data_size in
  (xfer_accepts req_data_size off resp_data_size /\ xr_calls r = 1%nat) \/
  (~ xfer_accepts req_data_size off resp_data_size /\
   r = XferResult (-1) (Some EINVAL) resp_data_size 0).
Proof.
  intros tr areq rd rds aresp pd off pds r. subst r.
  unfold nvme_mi_admin_xfer, xfer_accepts. rewrite land3_Z.
  destruct (Nat.ltb_spec 4096 pds); [right; split; [lia | reflexivity] |].
  destruct (Z.ltb_spec 0xffffffff off); [right; split; [lia | reflexivity] |].
  destruct (Z.eqb_spec (off mod 4) 0); cbn [negb];
    [| right; split; [lia | reflexivity]].
  destruct (Nat.eqb_spec rds 0); destruct (Nat.eqb_spec pds 0); cbn [negb andb];
    try (right; split; [lia | reflexivity]);
  destruct (Z.eqb_spec off 0); cbn [negb andb];
    try (right; split; [lia | reflexivity]);
  match goal with
  | |- context [nvme_mi_submit tr ?q ?p] =>
    destruct (nvme_mi_submit_prechecks_cases tr q p) as [[Hp Hc] | [Hn E]]
  end.
  all: try (rewrite E; right; split; [| reflexivity];
            intros (_ & _ & _ & _ & _ & Hr & Hs); apply Hn;
            unfold submit_prechecks; cbn [rq_hdr_len rq_data_len rs_hdr_len rs_data_len];
            rewrite ?(fun q => proj1 (calc_req_mic_lens q)),
                    ?(fun q => proj1 (proj2 (calc_req_mic_lens q)));
            cbn [rq_hdr_len rq_data_len rs_hdr_len rs_data_len];
            unfold sizeof_msg_hdr, sizeof_admin_req_hdr, sizeof_admin_resp_hdr;
            repeat split; lia).
  all: left; split; [unfold submit_prechecks in Hp;
    cbn [rq_hdr_len rq_data_len rs_hdr_len rs_data_len] in Hp;
    rewrite ?(fun q => proj1 (calc_req_mic_lens q)),
            ?(fun q => proj1 (proj2 (calc_req_mic_lens q))) in Hp;
    cbn [rq_hdr_len rq_data_len rs_hdr_len rs_data_len] in Hp;
    unfold sizeof_msg_hdr, sizeof_admin_req_hdr, sizeof_admin_resp_hdr in Hp;
    repeat split; lia |].
  all: destruct (negb (sr_rc _ =? 0)); exact Hc.
Qed.

Lemma errno_after_None : forall e, errno_after None e = e.
Proof. intros [e |]; reflexivity. Qed.

Lemma ga_len_with_log : forall a l, ga_len (with_log a l) = ga_len a.
Proof. reflexivity. Qed.

Lemma get_log_one_chunk : forall tr ctrl_id args,
  sizeof_get_log_args <= ga_args_size args -> 0 < ga_len args <= 4096 ->
  let c := __nvme_mi_admin_get_log tr ctrl_id args 0 (ga_len args) true in
  nvme_mi_admin_get_log tr ctrl_id args =
  Some (GetLogResult (cr_rc c) (cr_errno c)
          (if cr_rc c =? 0 then with_len (with_log args (cr_log c)) (cr_len c)
           else with_log args (cr_log c))
          [(0, ga_len args, true)] (cr_sent c)).
Proof.
  intros tr ctrl_id args Hsz Hlen c.
  unfold nvme_mi_admin_get_log.
  replace (ga_args_size args <? sizeof_get_log_args) with false
    by (symmetry; apply Z.ltb_ge; lia).
  destruct (Z.to_nat (ga_len args)) as [| m] eqn:Hm; [lia |].
  cbn [get_log_loop].
  replace (0 <? ga_len args) with true by (symmetry; apply Z.ltb_lt; lia).
  replace (if ga_len args <? 0 + 4096 then ga_len args - 0 else 4096) with (ga_len args)
    by (destruct (Z.ltb_spec (ga_len args) (0 + 4096)); lia).
  replace (ga_len args <=? 0 + ga_len args) with true by (symmetry; apply Z.leb_le; lia).
  fold c. rewrite errno_after_None. cbn [app].
  destruct (Z.eqb_spec (cr_rc c) 0) as [Hrc | Hrc]; cbn [negb].
  - rewrite Hrc. cbn [Z.eqb].
    destruct (Z.eqb_spec (cr_len c) (ga_len args)) as [Hl | Hl]; cbn [negb].
    + cbn [get_log_loop]. rewrite ga_len_with_log.
      replace (0 + cr_len c <? ga_len args) with false
        by (symmetry; apply Z.ltb_ge; lia).
      rewrite Hl. reflexivity.
    + reflexivity.
  - apply Z.eqb_neq in Hrc. rewrite Hrc. reflexivity.
Qed.




Lemma testbit_small : forall a k n, 0 <= a < 2 ^ k -> 0 <= k <= n -> Z.testbit a n = false.
Proof.
  intros a k n Ha Hk.
  destruct (Z.eq_dec a 0) as [-> | Hnz]; [apply Z.testbit_0_l |].
  apply Z.bits_above_log2; [lia |].
  assert (Hl : Z.log2 a < k) by (apply Z.log2_lt_pow2; lia). lia.
Qed.

(** In the Get Log Page [cdw10], bit 15 is set when the chunk is not the
    final one, when [rae] is set, or when bit 7 of [lsp] is set, and the
    upper 16 bits hold the low 16 bits of [ndw]. *)
Theorem get_log_cdw10_fields : forall ndw final args,
  0 <= ga_lsp args < 256 ->
  Z.testbit (get_log_cdw10 ndw final args) 15 =
    (negb final || ga_rae args || Z.testbit (ga_lsp args) 7) /\
  Z.shiftr (get_log_cdw10 ndw final args) 16 = Z.land ndw 0xffff.
Proof.
  intros ndw final args Hlsp. unfold get_log_cdw10.
  set (b := if negb final || ga_rae args then 1 else 0).
  assert (Hb : 0 <= b < 2 ^ 1) by (unfold b; destruct (negb final || ga_rae args); lia).
  split.
  - rewrite !Z.lor_spec, Z.shiftl_spec_low by lia.
    rewrite !Z.shiftl_spec by lia. rewrite Z.land_spec.
    replace (Z.testbit 0xff 15) with false by reflexivity.
    replace (15 - 15) with 0 by lia. replace (15 - 8) with 7 by lia.
    rewrite andb_false_r, orb_false_r, orb_false_l.
    unfold b. destruct (negb final || ga_rae args); reflexivity.
  - apply Z.bits_inj'. intros n Hn.
    rewrite Z.shiftr_spec by lia. rewrite !Z.lor_spec, !Z.shiftl_spec by lia.
    replace (n + 16 - 16) with n by lia.
    rewrite (testbit_small b 1) by lia.
    rewrite (testbit_small (ga_lsp args) 8) by lia.
    rewrite !Z.land_spec, (testbit_small 255 8 (n + 16)) by lia.
    rewrite andb_false_r, !orb_false_r. reflexivity.
Qed.


(** An Identify with size 0 or above [0xffffffff] fails with EINVAL before
    any exchange and stores no result. *)
Theorem identify_size_rejected : forall tr ctrl_id args offset size,
  (size = 0%nat \/ 0xffffffff < Z.of_nat size) ->
  let r := nvme_mi_admin_identify_partial tr ctrl_id args offset size in
  ar_rc r = -1 /\ ar_errno r = Some EINVAL /\ ar_calls r = 0%nat /\ ar_result r = None.
Proof.
  intros tr ctrl_id args offset size Hs r. subst r.
  unfold nvme_mi_admin_identify_partial.
  destruct (ia_args_size args <? sizeof_identify_args); [repeat split |].
  replace ((size =? 0)%nat || (0xffffffff <? Z.of_nat size)) with true; [repeat split |].
  symmetry. apply orb_true_iff.
  destruct Hs as [-> | Hs]; [left; reflexivity | right; apply Z.ltb_lt; exact Hs].
Qed.

Lemma identify_size_rejected_witness :
  ar_rc (nvme_mi_admin_identify_partial (device 0) 1
           (IdentifyArgs sizeof_identify_args 0 0 1 0 0 0 []) 0 0) = -1.
Proof.
  apply (identify_size_rejected (device 0) 1
           (IdentifyArgs sizeof_identify_args 0 0 1 0 0 0 []) 0 0).
  left; reflexivity.
Defined.

Lemma security_req_lens : forall h d n,
  submit_prechecks (nvme_mi_calc_req_mic (MiReq h sizeof_admin_req_hdr d n 0))
    (nvme_mi_admin_init_resp stack_admin_resp_hdr) -> (n mod 4 = 0)%nat.
Proof. intros h d n (_ & _ & H & _). exact H. Qed.

(** Security Send and Security Receive with a data length above 4096 or not
    a multiple of 4 fail with EINVAL without any exchange, and Receive leaves
    the arguments unchanged. *)
Theorem security_len_rejected : forall tr ctrl_id args,
  0 <= sa_data_len args ->
  (4096 < sa_data_len args \/ sa_data_len args mod 4 <> 0) ->
  let s := nvme_mi_admin_security_send tr ctrl_id args in
  let v := nvme_mi_admin_security_recv tr ctrl_id args in
  ar_rc s = -1 /\ ar_errno s = Some EINVAL /\ ar_calls s = 0%nat /\
  ar_rc (fst v) = -1 /\ ar_errno (fst v) = Some EINVAL /\ ar_calls (fst v) = 0%nat /\
  snd v = args.
Proof.
  intros tr ctrl_id args H0 Hbad s v. subst s v.
  assert (Hm : forall n, n = Z.to_nat (sa_data_len args) -> sa_data_len args <= 4096 ->
                 (n mod 4 = 0)%nat -> False).
  { intros n Hn Hle Hm. subst n. destruct Hbad as [Hb | Hb]; [lia |]. apply Hb.
    destruct (MctpRecon.mod4_mul _ Hm) as [q Hq].
    assert (Hl : sa_data_len args = 4 * Z.of_nat q) by lia.
    rewrite Hl, Z.mul_comm. apply Z.mod_mul. lia. }
  unfold nvme_mi_admin_security_send, nvme_mi_admin_security_recv.
  destruct (sa_args_size args <? sizeof_security_args); [repeat split |].
  destruct (Z.ltb_spec 4096 (sa_data_len args)) as [H4 | H4]; [repeat split |].
  cbv zeta.
  match goal with
  | |- context [nvme_mi_submit tr ?q ?p] =>
    destruct (nvme_mi_submit_prechecks_cases tr q p) as [[Hp _] | [_ E]];
      [exfalso; apply (Hm _ eq_refl H4); exact (security_req_lens _ _ _ Hp) |]
  end.
  rewrite E. cbn [sr_rc sr_errno sr_calls Z.eqb negb].
  match goal with
  | |- context [nvme_mi_submit tr ?q ?p] =>
    destruct (nvme_mi_submit_prechecks_cases tr q p) as [[Hp _] | [_ E']]
  end.
  - exfalso. apply (Hm _ eq_refl H4). destruct Hp as (_ & _ & _ & _ & _ & Hp). exact Hp.
  - rewrite E'. repeat split.
Qed.

Lemma scan_add_ctrls_first : forall ids j k ctrls,
  scan_add_ctrls ids (fun i => (i <? j)%nat) k ctrls =
  ctrls ++ firstn (j - k) (filter (fun id => negb (id =? 0)) ids).
Proof.
  induction ids as [| id rest IH]; intros j k ctrls; cbn [scan_add_ctrls filter].
  - rewrite firstn_nil, app_nil_r. reflexivity.
  - destruct (Z.eqb_spec id 0) as [Hz | Hz]; cbn [negb]; [apply IH |].
    destruct (Nat.ltb_spec k j) as [Hk | Hk].
    + rewrite IH, <- app_assoc. f_equal.
      replace (j - k)%nat with (S (j - S k)) by lia. reflexivity.
    + replace (j - k)%nat with 0%nat by lia. rewrite firstn_O, app_nil_r. reflexivity.
Qed.

(** A scan that reads a valid controller list appends one controller per
    non-zero identifier, in list order, as long as allocation succeeds (here
    for the first [j] controllers), after closing the old controllers on a
    forced rescan, and marks the endpoint scanned. *)
Theorem scan_ep_creates_nonzero_ids : forall tr ep force hdr lst j,
  (ep_scanned ep = false \/ force = true) ->
  rd_rc (nvme_mi_mi_read_mi_data_ctrl_list tr 0 hdr lst) = 0 ->
  ctrl_list_num (rd_data (nvme_mi_mi_read_mi_data_ctrl_list tr 0 hdr lst))
    <= NVME_ID_CTRL_LIST_MAX ->
  let r := nvme_mi_mi_read_mi_data_ctrl_list tr 0 hdr lst in
  let ids := map (ctrl_list_id (rd_data r))
               (seq 0 (Z.to_nat (ctrl_list_num (rd_data r)))) in
  nvme_mi_scan_ep tr ep force hdr lst (fun k => (k <? j)%nat) =
  ScanResult 0 (rd_errno r)
    (EpState ((if ep_scanned ep then [] else ep_ctrls ep) ++
              firstn j (filter (fun id => negb (id =? 0)) ids)) true)
    (rd_calls r).
Proof.
  intros tr ep force hdr lst j Hf Hrc Hn r ids.
  assert (Hread : forall e, scan_ep_read tr e hdr lst (fun k => (k <? j)%nat) =
            ScanResult 0 (rd_errno r)
              (EpState (ep_ctrls e ++ firstn j (filter (fun id => negb (id =? 0)) ids)) true)
              (rd_calls r)).
  { intro e. unfold scan_ep_read. fold r. fold r in Hrc, Hn.
    rewrite Hrc. cbn [Z.eqb negb].
    replace (NVME_ID_CTRL_LIST_MAX <? ctrl_list_num (rd_data r)) with false
      by (symmetry; apply Z.ltb_ge; exact Hn).
    rewrite scan_add_ctrls_first, Nat.sub_0_r. reflexivity. }
  unfold nvme_mi_scan_ep.
  destruct (ep_scanned ep) eqn:Hs.
  - destruct Hf as [Hf | Hf]; [discriminate Hf | subst force]. exact (Hread (EpState [] true)).
  - exact (Hread ep).
Qed.

Lemma scan_ep_creates_nonzero_ids_witness :
  nvme_mi_scan_ep (payload_device 0 ctrl_list_payload) (EpState [] false) false
    (repeat 0 8) (repeat 0 4096) (fun k => (k <? 16)%nat) =
  ScanResult 0 None (EpState [1; 3] true) 1.
Proof.
  rewrite (scan_ep_creates_nonzero_ids (payload_device 0 ctrl_list_payload)
             (EpState [] false) false (repeat 0 8) (repeat 0 4096) 16).
  - vm_compute. reflexivity.
  - left; reflexivity.
  - vm_compute. reflexivity.
  - vm_compute. discriminate.
Defined.

(** A forced rescan whose list read fails returns -1 with every controller
    closed while the endpoint stays marked scanned, so later scans without
    [force_rescan] report success with no controllers. *)
Theorem scan_ep_failed_rescan_forgets : forall tr ep hdr lst alloc,
  ep_scanned ep = true ->
  rd_rc (nvme_mi_mi_read_mi_data_ctrl_list tr 0 hdr lst) <> 0 ->
  let r := nvme_mi_scan_ep tr ep true hdr lst alloc in
  sc_rc r = -1 /\ sc_ep r = EpState [] true /\
  (forall tr' hdr' lst' alloc',
     nvme_mi_scan_ep tr' (sc_ep r) false hdr' lst' alloc' =
     ScanResult 0 None (EpState [] true) 0).
Proof.
  intros tr ep hdr lst alloc Hs Hrc r.
  assert (Hr : r = ScanResult (-1)
                     (rd_errno (nvme_mi_mi_read_mi_data_ctrl_list tr 0 hdr lst))
                     (EpState [] true)
                     (rd_calls (nvme_mi_mi_read_mi_data_ctrl_list tr 0 hdr lst))).
  { subst r. unfold nvme_mi_scan_ep. rewrite Hs. unfold scan_ep_read.
    apply Z.eqb_neq in Hrc. rewrite Hrc. reflexivity. }
  rewrite Hr. cbn [sc_rc sc_ep]. repeat split.
Qed.

Lemma scan_ep_failed_rescan_forgets_witness :
  ep_scanned (EpState [1; 3] true) = true /\
  rd_rc (nvme_mi_mi_read_mi_data_ctrl_list (device 1) 0 (repeat 0 8) (repeat 0 4096)) <> 0 /\
  sc_rc (nvme_mi_scan_ep (device 1) (EpState [1; 3] true) true (repeat 0 8) (repeat 0 4096)
           (fun _ => true)) = -1.
Proof.
  assert (H1 : ep_scanned (EpState [1; 3] true) = true) by reflexivity.
  assert (H2 : rd_rc (nvme_mi_mi_read_mi_data_ctrl_list (device 1) 0 (repeat 0 8) (repeat 0 4096)) <> 0)
    by (vm_compute; discriminate).
  split; [exact H1 | split; [exact H2 |]].
  exact (proj1 (scan_ep_failed_rescan_forgets (device 1) (EpState [1; 3] true)
                  (repeat 0 8) (repeat 0 4096) (fun _ => true) H1 H2)).
Defined.



Lemma submit_success_guarantees_witness :
  sr_calls (nvme_mi_submit (device 0) MctpFixtures.cfg_req MctpFixtures.cfg_resp) = 1%nat.
Proof.
  apply (submit_success_guarantees (device 0) MctpFixtures.cfg_req MctpFixtures.cfg_resp).
  vm_compute. reflexivity.
Defined.

(** A Get Log Page of at most 4096 bytes is one inner transfer at offset 0
    with [final] set; its return code and errno are the command's, and the
    log length is updated only on success. *)
Theorem get_log_single_chunk : forall tr ctrl_id args,
  sizeof_get_log_args <= ga_args_size args -> 0 < ga_len args <= 4096 ->
  let c := __nvme_mi_admin_get_log tr ctrl_id args 0 (ga_len args) true in
  nvme_mi_admin_get_log tr ctrl_id args =
  Some (GetLogResult (cr_rc c) (cr_errno c)
          (if cr_rc c =? 0 then with_len (with_log args (cr_log c)) (cr_len c)
           else with_log args (cr_log c))
          [(0, ga_len args, true)] (cr_sent c)).
Proof. exact get_log_one_chunk. Qed.

Lemma get_log_single_chunk_witness :
  option_map gl_inner (nvme_mi_admin_get_log (device 0) 1 (log_args 512 true)) =
    Some [(0, 512, true)].
Proof.
  rewrite (get_log_single_chunk (device 0) 1 (log_args 512 true)); [reflexivity | |];
    cbn; lia.
Defined.


Lemma get_log_cdw10_fields_witness :
  Z.testbit (get_log_cdw10 5 false (log_args 24 false)) 15 = true.
Proof.
  rewrite (proj1 (get_log_cdw10_fields 5 false (log_args 24 false) ltac:(cbn; lia))).
  reflexivity.
Defined.

Lemma security_len_rejected_witness :
  ar_rc (nvme_mi_admin_security_send (device 0) 1
           (SecurityArgs sizeof_security_args (repeat 0 5) 5 0 0 0 0)) = -1.
Proof.
  apply (security_len_rejected (device 0) 1
           (SecurityArgs sizeof_security_args (repeat 0 5) 5 0 0 0 0)).
  - cbn; lia.
  - right. cbn. discriminate.
Defined.

Lemma lor_shiftl_add : forall a b k, 0 <= k -> 0 <= a < 2 ^ k -> 0 <= b ->
  Z.lor a (Z.shiftl b k) = a + b * 2 ^ k.
Proof.
  intros a b k Hk Ha Hb.
  assert (Hl : Z.land a (Z.shiftl b k) = 0).
  { apply Z.bits_inj'. intros n Hn. rewrite Z.land_spec, Z.bits_0.
    destruct (Z.lt_ge_cases n k).
    - rewrite Z.shiftl_spec_low by lia. apply andb_false_r.
    - assert (Ht : Z.testbit a n = false).
      { destruct (Z.eq_dec a 0) as [-> | Hnz]; [apply Z.testbit_0_l |].
        apply Z.bits_above_log2; [lia |].
        assert (Z.log2 a < k) by (apply Z.log2_lt_pow2; lia). lia. }
      rewrite Ht. reflexivity. }
  rewrite <- Z.lxor_lor by exact Hl. rewrite <- Z.add_nocarry_lxor by exact Hl.
  rewrite Z.shiftl_mul_pow2 by lia. reflexivity.
Qed.

(** [nvme_mi_mi_config_get] stores [nmresp] only when it returns 0, and
    then the value is the 24-bit little-endian number of the three [nmresp]
    bytes of the response header. *)
Theorem config_get_nmresp : forall tr resp_hdr dw0 dw1,
  let s := nvme_mi_submit tr
             (mi_config_req nvme_mi_mi_opcode_configuration_get dw0 dw1)
             (MiResp resp_hdr sizeof_mi_resp_hdr [] 0 0) in
  let h := rs_hdr (sr_resp s) in
  let res := nvme_mi_mi_config_get tr resp_hdr dw0 dw1 in
  (fst res <> 0 -> snd res = None) /\
  (fst res = 0 -> (forall i, (5 <= i <= 7)%nat -> 0 <= hdr_byte h i < 256) ->
   snd res = Some (hdr_byte h 5 + 256 * hdr_byte h 6 + 65536 * hdr_byte h 7) /\
   0 <= hdr_byte h 5 + 256 * hdr_byte h 6 + 65536 * hdr_byte h 7 < 2 ^ 24).
Proof.
  intros tr resp_hdr dw0 dw1 s h res. subst res.
  unfold nvme_mi_mi_config_get. fold s. fold h.
  destruct (Z.eqb_spec (sr_rc s) 0) as [E1 | E1]; cbn [negb fst snd].
  2: { split; [reflexivity | intro; contradiction]. }
  destruct (Z.eqb_spec (hdr_byte h OFF_STATUS) 0) as [E2 | E2]; cbn [negb fst snd].
  2: { split; [reflexivity | intro; contradiction]. }
  split; [intro C; contradiction C; reflexivity |].
  intros _ Hb.
  pose proof (Hb 5%nat ltac:(lia)). pose proof (Hb 6%nat ltac:(lia)).
  pose proof (Hb 7%nat ltac:(lia)).
  rewrite (lor_shiftl_add _ _ 8) by (change (2 ^ 8) with 256; lia).
  rewrite (lor_shiftl_add _ _ 16) by (change (2 ^ 8) with 256; change (2 ^ 16) with 65536; lia).
  change (2 ^ 8) with 256. change (2 ^ 16) with 65536. change (2 ^ 24) with 16777216.
  split; [f_equal; lia | lia].
Qed.

Lemma config_get_nmresp_witness :
  snd (nvme_mi_mi_config_get (device 0) [0; 0; 0; 0; 0; 0x12; 0x34; 0x56] 0 0) =
    Some (0x12 + 256 * 0x34 + 65536 * 0x56).
Proof.
  destruct (config_get_nmresp (device 0) [0; 0; 0; 0; 0; 0x12; 0x34; 0x56] 0 0) as [_ H].
  cbv zeta in H.
  assert (Eh : rs_hdr (sr_resp (nvme_mi_submit (device 0)
                 (mi_config_req nvme_mi_mi_opcode_configuration_get 0 0)
                 (MiResp [0; 0; 0; 0; 0; 0x12; 0x34; 0x56] sizeof_mi_resp_hdr [] 0 0))) =
               [0x84; 0x88; 0; 0; 0; 0x12; 0x34; 0x56]) by (vm_compute; reflexivity).
  rewrite Eh in H.
  apply H.
  - vm_compute. reflexivity.
  - intros i Hi.
    destruct i as [| [| [| [| [| [| [| [| i]]]]]]]]; try lia; cbn; lia.
Defined.

Module MctpExtra.
Import Mctp.

Lemma drops_app : forall a b, drops (a ++ b) = (drops a + drops b)%nat.
Proof.
  induction a as [| e a IH]; intro b; [reflexivity |].
  destruct e; cbn [app drops]; rewrite IH; reflexivity.
Qed.

Lemma retry_trace : forall script ep timeout resp micbuf ev,
  match mctp_retry ep script timeout resp micbuf ev with
  | XOut _ _ _ ev' => exists mid, ev' = ev ++ mid /\ drops mid = 0%nat
  | XReturn rc err _ ev' =>
      exists mid t, ev' = ev ++ mid ++ [EvPoll t] /\ drops mid = 0%nat /\ rc = -1 /\
      (err = Some ETIMEDOUT \/ exists e, err = Some e /\ e <> EINTR)
  | _ => True
  end.
Proof.
  induction script as [| p rest IH]; intros ep timeout resp micbuf ev; [exact I |].
  cbn [mctp_retry].
  destruct p as [e | | [e | m]].
  - destruct (Z.eqb_spec e EINTR) as [He | He].
    + specialize (IH ep timeout resp micbuf (ev ++ [EvPoll timeout])).
      destruct (mctp_retry ep rest timeout resp micbuf (ev ++ [EvPoll timeout])); auto.
      * destruct IH as [mid [-> Hd]]. exists ([EvPoll timeout] ++ mid).
        rewrite app_assoc. split; [reflexivity |]. rewrite drops_app. exact Hd.
      * destruct IH as [mid [t [-> [Hd Hr]]]]. exists ([EvPoll timeout] ++ mid), t.
        rewrite !app_assoc. split; [reflexivity |]. rewrite drops_app. split; [exact Hd | exact Hr].
    + exists [], timeout. split; [reflexivity |]. split; [reflexivity |].
      split; [reflexivity | right; exists e; split; [reflexivity | exact He]].
  - exists [], timeout. split; [reflexivity |]. split; [reflexivity |].
    split; [reflexivity | left; reflexivity].
  - exists [EvPoll timeout; EvRecv]. rewrite <- app_assoc. split; reflexivity.
  - destruct (mctp_rx_frame resp micbuf m) as [[[len resp1] micbuf1] |].
    2: { exists [EvPoll timeout; EvRecv]. rewrite <- app_assoc. split; reflexivity. }
    destruct (len <? 8 + 4)%nat.
    { exists [EvPoll timeout; EvRecv]. rewrite <- app_assoc. split; reflexivity. }
    destruct (negb (Nat.land len 3 =? 0)%nat).
    { exists [EvPoll timeout; EvRecv]. rewrite <- app_assoc. split; reflexivity. }
    destruct (nvme_mi_mctp_resp_is_mpr resp1 len) as [[t |] |]; [| | exact I].
    + set (ev1 := (ev ++ [EvPoll timeout]) ++ [EvRecv]).
      specialize (IH ep (to_int32 (mpr_wait ep t)) resp1 micbuf1 ev1).
      destruct (mctp_retry ep rest (to_int32 (mpr_wait ep t)) resp1 micbuf1 ev1); auto.
      * destruct IH as [mid [-> Hd]]. exists ([EvPoll timeout; EvRecv] ++ mid).
        unfold ev1. rewrite <- !app_assoc. split; [reflexivity |].
        rewrite drops_app. exact Hd.
      * destruct IH as [mid [t' [-> [Hd Hr]]]]. exists ([EvPoll timeout; EvRecv] ++ mid), t'.
        unfold ev1. rewrite <- !app_assoc. split; [reflexivity |].
        rewrite drops_app. split; [exact Hd | exact Hr].
    + destruct (mctp_reconcile resp1 micbuf1 len); [| exact I].
      exists [EvPoll timeout; EvRecv]. rewrite <- app_assoc. split; reflexivity.
Qed.


(** Every finished MCTP submit either fails before allocating a tag, or
    allocates and sends with one tag and then either drops it once at the end
    or returns -1 right after a poll (timeout or non-EINTR error) with the tag
    never dropped. *)
Theorem mctp_submit_tag_lifecycle : forall ep env req resp rc err resp' ev,
  nvme_mi_mctp_submit ep env req resp = MDone rc err resp' ev ->
  let tag := nvme_mi_mctp_tag_alloc env in
  (ev = [] /\ rc = -1 /\ err = Some EINVAL) \/
  (exists mid, drops mid = 0%nat /\
     ev = [EvTagAlloc tag; EvSend tag] ++ mid ++ [EvTagDrop tag]) \/
  (exists mid t, drops mid = 0%nat /\
     ev = [EvTagAlloc tag; EvSend tag] ++ mid ++ [EvPoll t] /\ rc = -1 /\
     (err = Some ETIMEDOUT \/ exists e, err = Some e /\ e <> EINTR)).
Proof.
  intros ep env req resp rc err resp' ev H tag.
  unfold nvme_mi_mctp_submit in H.
  destruct (negb (ep_is_mctp ep)).
  { injection H as <- <- _ <-. left. repeat split. }
  destruct (rs_hdr_len resp <? sizeof_msg_resp)%nat.
  { injection H as <- <- _ <-. left. repeat split. }
  fold tag in H. right.
  destruct (env_send env) as [e |].
  { injection H as <- <- _ <-. left. exists []. split; reflexivity. }
  match type of H with
  | context [mctp_retry ep (env_script env) ?t ?r ?mb ?ev0] =>
    pose proof (retry_trace (env_script env) ep t r mb ev0) as Ht;
    destruct (mctp_retry ep (env_script env) t r mb ev0); try discriminate
  end.
  - injection H as <- <- _ <-. destruct Ht as [mid [-> Hd]].
    left. exists mid. split; [exact Hd |]. rewrite <- app_assoc. reflexivity.
  - injection H as <- <- _ <-. destruct Ht as [mid [t [-> Hr]]].
    right. exists mid, t. destruct Hr as [Hd Hr]. split; [exact Hd | split; [reflexivity | exact Hr]].
Qed.

Lemma mctp_submit_tag_lifecycle_witness :
  let tag := nvme_mi_mctp_tag_alloc (MctpFixtures.env_of [PollTimeout]) in
  ([EvTagAlloc 12; EvSend 12; EvPoll 1000] = [] /\ -1 = -1 /\ Some ETIMEDOUT = Some EINVAL) \/
  (exists mid, drops mid = 0%nat /\
     [EvTagAlloc 12; EvSend 12; EvPoll 1000] =
       [EvTagAlloc tag; EvSend tag] ++ mid ++ [EvTagDrop tag]) \/
  (exists mid t, drops mid = 0%nat /\
     [EvTagAlloc 12; EvSend 12; EvPoll 1000] =
       [EvTagAlloc tag; EvSend tag] ++ mid ++ [EvPoll t] /\ -1 = -1 /\
     (Some ETIMEDOUT = Some ETIMEDOUT \/ exists e, Some ETIMEDOUT = Some e /\ e <> EINTR)).
Proof.
  apply (mctp_submit_tag_lifecycle MctpFixtures.ep0 (MctpFixtures.env_of [PollTimeout])
           MctpFixtures.cfg_req MctpFixtures.cfg_resp (-1) (Some ETIMEDOUT)
           MctpFixtures.cfg_resp [EvTagAlloc 12; EvSend 12; EvPoll 1000]).
  vm_compute. reflexivity.
Defined.


Lemma rx_frame_lens : forall resp micbuf m len resp1 micbuf1,
  mctp_rx_frame resp micbuf m = Some (len, resp1, micbuf1) ->
  rs_hdr_len resp1 = rs_hdr_len resp /\ rs_data_len resp1 = rs_data_len resp /\
  (len <= S (rs_hdr_len resp - 1 + rs_data_len resp + 4))%nat.
Proof.
  intros resp micbuf m len resp1 micbuf1 H.
  unfold mctp_rx_frame, mctp_recvmsg in H.
  destruct (_ + _ + _ =? 0)%nat; [discriminate |].
  injection H as <- <- _. cbn [with_hdr rs_hdr_len rs_data_len].
  split; [reflexivity | split; [reflexivity |]].
  rewrite !length_firstn.
  destruct (skipn (rs_hdr_len resp - 1 + rs_data_len resp) m) as [| ? [| ? [| ? [| ? ?]]]];
    cbn [length]; lia.
Qed.

Lemma reconcile_lens : forall resp micbuf len resp',
  mctp_reconcile resp micbuf len = Some resp' ->
  (len <= rs_hdr_len resp + rs_data_len resp + 4)%nat ->
  (rs_hdr_len resp' <= rs_hdr_len resp)%nat /\ (rs_data_len resp' <= rs_data_len resp)%nat.
Proof.
  intros resp micbuf len resp' H Hl. unfold mctp_reconcile in H.
  destruct (Nat.eqb_spec len (rs_hdr_len resp + rs_data_len resp + 4)).
  { injection H as <-. cbn. lia. }
  destruct (Nat.ltb_spec len (rs_hdr_len resp + 4)).
  - destruct (read_bytes _ _ _); [| discriminate]. injection H as <-. cbn. lia.
  - destruct (read_bytes _ _ _); [| discriminate]. injection H as <-. cbn. lia.
Qed.

Lemma retry_lens : forall script ep timeout resp micbuf ev,
  (1 <= rs_hdr_len resp)%nat ->
  match mctp_retry ep script timeout resp micbuf ev with
  | XOut rc _ resp' _ | XReturn rc _ resp' _ => lens_within resp resp' rc
  | _ => True
  end.
Proof.
  unfold lens_within.
  induction script as [| p rest IH]; intros ep timeout resp micbuf ev H1; [exact I |].
  cbn [mctp_retry].
  destruct p as [e | | [e | m]].
  - destruct (e =? EINTR); [apply IH; exact H1 | repeat split; lia].
  - repeat split; lia.
  - repeat split; lia.
  - destruct (mctp_rx_frame resp micbuf m) as [[[len resp1] micbuf1] |] eqn:Hrx;
      [| repeat split; lia].
    destruct (rx_frame_lens _ _ _ _ _ _ Hrx) as (Eh & Ed & Hlen).
    destruct (len <? 8 + 4)%nat; [rewrite Eh, Ed; repeat split; lia |].
    destruct (negb (Nat.land len 3 =? 0)%nat); [rewrite Eh, Ed; repeat split; lia |].
    destruct (nvme_mi_mctp_resp_is_mpr resp1 len) as [[t |] |]; [| | exact I].
    + specialize (IH ep (to_int32 (mpr_wait ep t)) resp1 micbuf1
                    ((ev ++ [EvPoll timeout]) ++ [EvRecv]) ltac:(lia)).
      destruct (mctp_retry _ _ _ _ _ _); auto; rewrite <- Eh, <- Ed; exact IH.
    + destruct (mctp_reconcile resp1 micbuf1 len) as [r |] eqn:Hrec; [| exact I].
      destruct (reconcile_lens _ _ _ _ Hrec ltac:(lia)) as [A B].
      split; [lia | split; [lia | intro Hc; exfalso; apply Hc; reflexivity]].
Qed.

(** The MCTP submit never increases the response header or data length,
    and leaves both unchanged whenever it fails. *)
Theorem mctp_submit_resp_lens_never_grow : forall ep env req resp rc err resp' ev,
  nvme_mi_mctp_submit ep env req resp = MDone rc err resp' ev ->
  (rs_hdr_len resp' <= rs_hdr_len resp)%nat /\ (rs_data_len resp' <= rs_data_len resp)%nat /\
  (rc <> 0 -> rs_hdr_len resp' = rs_hdr_len resp /\ rs_data_len resp' = rs_data_len resp).
Proof.
  intros ep env req resp rc err resp' ev H.
  unfold nvme_mi_mctp_submit in H.
  destruct (negb (ep_is_mctp ep)).
  { injection H as _ _ <- _. repeat split; lia. }
  destruct (Nat.ltb_spec (rs_hdr_len resp) sizeof_msg_resp) as [_ | Hh].
  { injection H as _ _ <- _. repeat split; lia. }
  destruct (env_send env) as [e |].
  { injection H as _ _ <- _. repeat split; lia. }
  match type of H with
  | context [mctp_retry ep (env_script env) ?t ?r ?mb ?ev0] =>
    pose proof (retry_lens (env_script env) ep t r mb ev0
                  ltac:(unfold sizeof_msg_resp in Hh; lia)) as Ht;
    destruct (mctp_retry ep (env_script env) t r mb ev0); try discriminate
  end.
  - injection H as <- _ <- _. exact Ht.
  - injection H as <- _ <- _. exact Ht.
Qed.

Lemma mctp_submit_resp_lens_never_grow_witness :
  Nat.le (rs_data_len (MiResp (0x84 :: map Z.of_nat (seq 1 19)) 20
                         (map Z.of_nat (seq 20 8)) 4 (le32_decode [24; 25; 26; 27])))
         (rs_data_len MctpFixtures.rx_resp).
Proof.
  apply (mctp_submit_resp_lens_never_grow MctpFixtures.ep0
           (MctpFixtures.env_of [PollReady (RecvMsg MctpFixtures.rx_datagram)])
           MctpFixtures.cfg_req MctpFixtures.rx_resp 0 None
           (MiResp (0x84 :: map Z.of_nat (seq 1 19)) 20 (map Z.of_nat (seq 20 8)) 4
              (le32_decode [24; 25; 26; 27]))
           [EvTagAlloc 12; EvSend 12; EvPoll 1000; EvRecv; EvTagDrop 12]).
  vm_compute. reflexivity.
Defined.


Lemma recv_count_all : forall (m : list byte) a b,
  (length m <= a + b + 4)%nat ->
  (length (firstn a m) + length (firstn b (skipn a m)) +
   length (firstn 4 (skipn (a + b) m)))%nat = length m.
Proof.
  intros m a b H. rewrite !length_firstn, !length_skipn. lia.
Qed.

(** A first datagram that is empty fails the MCTP submit with EIO, and one
    shorter than 12 bytes or of unaligned length with the type byte fails it
    with EPROTO; the tag is dropped in both cases. *)
Theorem mctp_submit_bad_datagram_rejected : forall ep env req resp m rest,
  ep_is_mctp ep = true -> (sizeof_msg_resp <= rs_hdr_len resp)%nat ->
  env_send env = None -> env_script env = PollReady (RecvMsg m) :: rest ->
  (length m <= rs_hdr_len resp - 1 + rs_data_len resp + 4)%nat ->
  (length m + 1 < 12 \/ (length m + 1) mod 4 <> 0)%nat ->
  let tag := nvme_mi_mctp_tag_alloc env in
  exists t resp',
    nvme_mi_mctp_submit ep env req resp =
    MDone (-1) (Some (if (length m =? 0)%nat then EIO else EPROTO)) resp'
      [EvTagAlloc tag; EvSend tag; EvPoll t; EvRecv; EvTagDrop tag].
Proof.
  intros ep env req resp m rest Hep Hh Hsend Hscript Hlen Hbad tag.
  unfold nvme_mi_mctp_submit. rewrite Hep.
  replace (rs_hdr_len resp <? sizeof_msg_resp)%nat with false
    by (symmetry; apply Nat.ltb_ge; lia).
  cbn [negb]. fold tag. rewrite Hsend, Hscript. cbn [mctp_retry].
  eexists.
  unfold mctp_rx_frame, mctp_recvmsg.
  rewrite recv_count_all by exact Hlen.
  destruct (Nat.eqb_spec (length m) 0) as [H0 | H0].
  - eexists. reflexivity.
  - destruct (Nat.ltb_spec (S (length m)) (8 + 4)) as [Hs | Hs].
    + eexists. reflexivity.
    + rewrite land3_mod4.
      replace (S (length m) mod 4 =? 0)%nat with false
        by (symmetry; apply Nat.eqb_neq;
            replace (S (length m)) with (length m + 1)%nat by lia;
            destruct Hbad as [Hb | Hb]; [lia | exact Hb]).
      eexists. reflexivity.
Qed.

Lemma mctp_submit_bad_datagram_rejected_witness :
  exists t resp',
    nvme_mi_mctp_submit MctpFixtures.ep0
      (MctpFixtures.env_of [PollReady (RecvMsg (repeat 1 13))])
      MctpFixtures.cfg_req MctpFixtures.rx_resp =
    MDone (-1) (Some (if (length (repeat 1 13) =? 0)%nat then EIO else EPROTO)) resp'
      [EvTagAlloc 12; EvSend 12; EvPoll t; EvRecv; EvTagDrop 12].
Proof.
  apply (mctp_submit_bad_datagram_rejected MctpFixtures.ep0
           (MctpFixtures.env_of [PollReady (RecvMsg (repeat 1 13))])
           MctpFixtures.cfg_req MctpFixtures.rx_resp (repeat 1 13) []);
    vm_compute; try reflexivity; lia.
Defined.


Lemma retry_extends : forall script ep timeout resp micbuf ev,
  exists mid, rx_trace (mctp_retry ep script timeout resp micbuf ev) = ev ++ mid.
Proof.
  induction script as [| p rest IH]; intros ep timeout resp micbuf ev.
  { exists []. rewrite app_nil_r. reflexivity. }
  cbn [mctp_retry].
  destruct p as [e | | [e | m]].
  - destruct (e =? EINTR).
    + destruct (IH ep timeout resp micbuf (ev ++ [EvPoll timeout])) as [mid Hm].
      rewrite Hm, <- app_assoc. eexists; reflexivity.
    + eexists; reflexivity.
  - eexists; reflexivity.
  - eexists; rewrite <- app_assoc; reflexivity.
  - destruct (mctp_rx_frame resp micbuf m) as [[[len resp1] micbuf1] |];
      [| eexists; rewrite <- app_assoc; reflexivity].
    destruct (len <? 8 + 4)%nat; [eexists; rewrite <- app_assoc; reflexivity |].
    destruct (negb (Nat.land len 3 =? 0)%nat); [eexists; rewrite <- app_assoc; reflexivity |].
    destruct (nvme_mi_mctp_resp_is_mpr resp1 len) as [[t |] |].
    + destruct (IH ep (to_int32 (mpr_wait ep t)) resp1 micbuf1
                  ((ev ++ [EvPoll timeout]) ++ [EvRecv])) as [mid Hm].
      rewrite Hm, <- !app_assoc. eexists; reflexivity.
    + destruct (mctp_reconcile resp1 micbuf1 len); eexists; rewrite <- app_assoc; reflexivity.
    + eexists; rewrite <- app_assoc; reflexivity.
Qed.

Lemma retry_first_poll : forall p rest ep timeout resp micbuf ev,
  exists mid, rx_trace (mctp_retry ep (p :: rest) timeout resp micbuf ev) =
              ev ++ [EvPoll timeout] ++ mid.
Proof.
  intros p rest ep timeout resp micbuf ev.
  destruct (retry_extends (p :: rest) ep timeout resp micbuf ev) as [mid Hm].
  assert (Hs : exists mid', rx_trace (mctp_retry ep (p :: rest) timeout resp micbuf ev) =
                            (ev ++ [EvPoll timeout]) ++ mid').
  { cbn [mctp_retry].
    destruct p as [e | | [e | m]].
    - destruct (e =? EINTR); [apply retry_extends | exists []; rewrite app_nil_r; reflexivity].
    - exists []; rewrite app_nil_r; reflexivity.
    - eexists; reflexivity.
    - destruct (mctp_rx_frame resp micbuf m) as [[[len resp1] micbuf1] |];
        [| eexists; reflexivity].
      destruct (len <? 8 + 4)%nat; [eexists; reflexivity |].
      destruct (negb (Nat.land len 3 =? 0)%nat); [eexists; reflexivity |].
      destruct (nvme_mi_mctp_resp_is_mpr resp1 len) as [[t |] |].
      + destruct (retry_extends rest ep (to_int32 (mpr_wait ep t)) resp1 micbuf1
                    ((ev ++ [EvPoll timeout]) ++ [EvRecv])) as [mid' Hm'].
        rewrite Hm', <- app_assoc. eexists; reflexivity.
      + destruct (mctp_reconcile resp1 micbuf1 len); eexists; reflexivity.
      + eexists; reflexivity. }
  destruct Hs as [mid' Hs]. exists mid'. rewrite Hs, app_assoc. reflexivity.
Qed.

Lemma to_int32_u32 : forall t, 0 <= t < 2 ^ 32 ->
  to_int32 t = if t <? 2 ^ 31 then t else t - 2 ^ 32.
Proof.
  intros t Ht. unfold to_int32, u32_mask.
  change 0xffffffff with (Z.ones 32). rewrite Z.land_ones by lia.
  rewrite Z.mod_small by lia. reflexivity.
Qed.

(** Over MCTP, which has no [check_timeout] hook, [nvme_mi_ep_set_timeout]
    accepts any 32-bit value; the first poll then waits -1 (forever) for 0,
    the value itself below 2^31, and a negative value, which also means
    forever, from 2^31 on. *)
Theorem mctp_set_timeout_first_poll : forall ep env req resp t p rest,
  0 <= t < 2 ^ 32 -> ep_is_mctp ep = true ->
  (sizeof_msg_resp <= rs_hdr_len resp)%nat ->
  env_send env = None -> env_script env = p :: rest ->
  let '(rc, ep') := nvme_mi_ep_set_timeout None ep t in
  let tag := nvme_mi_mctp_tag_alloc env in
  rc = 0 /\
  exists mid,
    mctp_trace (nvme_mi_mctp_submit ep' env req resp) =
    [EvTagAlloc tag; EvSend tag;
     EvPoll (if t =? 0 then -1 else if t <? 2 ^ 31 then t else t - 2 ^ 32)] ++ mid.
Proof.
  intros ep env req resp t p rest Ht Hep Hh Hsend Hscript.
  cbn [nvme_mi_ep_set_timeout Z.eqb negb]. split; [reflexivity |].
  unfold nvme_mi_mctp_submit. cbn [ep_is_mctp ep_timeout]. rewrite Hep.
  replace (rs_hdr_len resp <? sizeof_msg_resp)%nat with false
    by (symmetry; apply Nat.ltb_ge; lia).
  cbn [negb]. rewrite Hsend, Hscript.
  match goal with
  | |- context [mctp_retry ?e (p :: rest) ?to ?r ?mb ?ev0] =>
    destruct (retry_first_poll p rest e to r mb ev0) as [mid Hm];
    assert (Hto : to = if t =? 0 then -1 else if t <? 2 ^ 31 then t else t - 2 ^ 32);
    [| destruct (mctp_retry e (p :: rest) to r mb ev0);
       cbn [rx_trace mctp_trace] in Hm |- *; rewrite Hm, Hto; cbn [app]]
  end.
  - destruct (Z.eqb_spec t 0) as [-> | Hz]; [reflexivity |].
    rewrite to_int32_u32 by exact Ht. reflexivity.
  - exists (mid ++ [EvTagDrop (nvme_mi_mctp_tag_alloc env)]). reflexivity.
  - exists mid. reflexivity.
  - exists mid. reflexivity.
  - exists mid. reflexivity.
Qed.

Lemma mctp_set_timeout_first_poll_witness :
  let '(rc, ep') := nvme_mi_ep_set_timeout None MctpFixtures.ep0 (2 ^ 31) in
  let tag := nvme_mi_mctp_tag_alloc (MctpFixtures.env_of [PollTimeout]) in
  rc = 0 /\
  exists mid,
    mctp_trace (nvme_mi_mctp_submit ep' (MctpFixtures.env_of [PollTimeout])
                  MctpFixtures.cfg_req MctpFixtures.cfg_resp) =
    [EvTagAlloc tag; EvSend tag;
     EvPoll (if 2 ^ 31 =? 0 then -1 else if 2 ^ 31 <? 2 ^ 31 then 2 ^ 31 else 2 ^ 31 - 2 ^ 32)]
    ++ mid.
Proof.
  assert (H1 : 0 <= 2 ^ 31 < 2 ^ 32) by (split; [apply Z.pow_nonneg | apply Z.pow_lt_mono_r]; lia).
  assert (H2 : (sizeof_msg_resp <= rs_hdr_len MctpFixtures.cfg_resp)%nat) by exact (Nat.le_refl 8).
  exact (mctp_set_timeout_first_poll MctpFixtures.ep0 (MctpFixtures.env_of [PollTimeout])
           MctpFixtures.cfg_req MctpFixtures.cfg_resp (2 ^ 31) PollTimeout []
           H1 eq_refl H2 eq_refl eq_refl).
Defined.

End MctpExtra.
